(** * Mayo unit system: translation and quantity parsing

    A shallow embedding of [unit_system.cpp] (namespace [Mayo]).  The C++
    [double] is IEEE binary64, embedded as Rocq's primitive [float]; a
    [const char*] that may be [nullptr] is an [option string]; strings are
    byte strings, so the UTF-8 symbols of the source are kept byte for byte. *)

From Stdlib Require Import PrimFloat FloatOps SpecFloat.
From Stdlib Require Import ZArith String Ascii List Bool Lia.
From Stdlib Require Import ListSet.
Import ListNotations.

Set Warnings "-inexact-float".
Local Open Scope string_scope.

(** ** Declarations of the headers

    [unit.h] and [unit_system.h] are not among the sources; the types below
    follow the data model of the specification and the way
    [unit_system.cpp] uses them. *)

(** Modelled from the spec: [enum class Unit] of [unit.h], the closed set
    of base and derived dimensions.  Its enumerators are the case labels of
    [Internal::symbol], whose switch handles all of them. *)
Module Unit.
Inductive t : Set :=
  | None
  (* Base *)
  | Length | Mass | Time | ElectricCurrent | ThermodynamicTemperature
  | AmountOfSubstance | LuminousIntensity | Angle
  (* Derived *)
  | Area | Volume | Velocity | Acceleration | Density | Pressure.

End Unit.

(** Modelled from the spec: [Quantity<U>] of [unit.h], a [double] magnitude
    in the base unit of [U]; [value()] reads it. *)
Module Quantity.
Record t (U : Unit.t) : Set := make { value : float }.
Arguments make {U} _.
Arguments value {U} _.
End Quantity.

Definition QuantityLength := Quantity.t Unit.Length.
Definition QuantityAngle := Quantity.t Unit.Angle.
Definition QuantityVolume := Quantity.t Unit.Volume.
Definition QuantityVelocity := Quantity.t Unit.Velocity.
Definition QuantityTime := Quantity.t Unit.Time.

(** The two [constexpr] quantities of [unit.h] the code reads.  Their values
    are not in the sources, so they are parameters of the development. *)
Class UnitConstants : Set := {
  Quantity_Degree : QuantityAngle;
  Quantity_Meter : QuantityLength
}.

(** Modelled from the spec: [enum UnitSystem::Schema] of [unit_system.h];
    its enumerators are the case labels of [UnitSystem::translate]. *)
Module Schema.
Inductive t : Set := SI | ImperialUK.
End Schema.

(** Modelled from the spec: [struct UnitSystem::TranslateResult] of
    [unit_system.h], a displayable value, a unit symbol that may be null and
    the factor applied; the code initialises it as an aggregate in this
    order. *)
Module TranslateResult.
Record t : Set := make {
  value : float;
  strUnit : option string;
  factor : float
}.

(** [return {};] value-initialises the aggregate. *)
Definition empty : t := make 0%float Datatypes.None 0%float.
End TranslateResult.

(** ** The number parser [fast_float::from_chars]

    A third-party library, taken as a parameter.  The code relies on its
    interface only: called on the characters of a text, it returns an error
    code and a pointer into the text, and stores the number it read through
    its last argument. *)

Inductive errc : Set :=
| errc_none                (* std::errc(), success *)
| errc_invalid_argument
| errc_result_out_of_range.

Record from_chars_result : Set := {
  ptr : nat;               (* offset of [ptr] from [first] *)
  ec : errc
}.

Class FastFloat : Type := {
  (* the result, and the content of [value] after the call *)
  from_chars : string -> from_chars_result * float;
  (* [ptr] lies between [first] and [last] *)
  from_chars_ptr : forall s, ptr (fst (from_chars s)) <= String.length s
}.

(** ** Control effects

    [std::string_view::substr] throws [std::out_of_range]; nothing in the
    unit catches it. *)
Inductive outcome (A : Type) : Type :=
| Returns (a : A)
| Throws_out_of_range.
Arguments Returns {A} a.
Arguments Throws_out_of_range {A}.

(** [sv.substr(pos)]: the view from [pos] to the end, or an exception when
    [pos > sv.size()]. *)
Fixpoint substr (sv : string) (pos : nat) {struct pos} : outcome string :=
  match pos, sv with
  | O, _ => Returns sv
  | S pos', String _ sv' => substr sv' pos'
  | S _, EmptyString => Throws_out_of_range
  end.

(** [sv.empty()]. *)
Definition empty (sv : string) : bool :=
  match sv with EmptyString => true | String _ _ => false end.

(** ** namespace Internal *)
Module Internal.

(** The [return "?"] after the switch is reached by no enumerator. *)
Definition symbol (unit : Unit.t) : string :=
  match unit with
  | Unit.None => ""
  (* Base *)
  | Unit.Length => "m"
  | Unit.Mass => "kg"
  | Unit.Time => "s"
  | Unit.ElectricCurrent => "A"
  | Unit.ThermodynamicTemperature => "K"
  | Unit.AmountOfSubstance => "mol"
  | Unit.LuminousIntensity => "cd"
  | Unit.Angle => "rad"
  (* Derived *)
  | Unit.Area => "m²"
  | Unit.Volume => "m³"
  | Unit.Velocity => "m/s"
  | Unit.Acceleration => "m/s²"
  | Unit.Density => "kg/m³"
  | Unit.Pressure => "kg/m.s²"
  end.

Module UnitInfo.
Record t : Set := make {
  unit : Unit.t;
  str : string;
  factor : float
}.
End UnitInfo.

(** The symbol of the inch written with a double quote. *)
Definition double_quote : string := String (ascii_of_nat 34) EmptyString.

Section Tables.
Context {UC : UnitConstants}.

Definition arrayUnitInfo_SI : list UnitInfo.t :=
  [ (* Length *)
    UnitInfo.make Unit.Length "mm" 1%float;
    UnitInfo.make Unit.Length "m" 1000%float;
    UnitInfo.make Unit.Length "nm" 1e-6%float;
    UnitInfo.make Unit.Length "µm" 0.001%float;
    UnitInfo.make Unit.Length "mm" 1%float;
    UnitInfo.make Unit.Length "m" 1000%float;
    UnitInfo.make Unit.Length "km" 1e6%float;
    (* Angle *)
    UnitInfo.make Unit.Angle "rad" 1%float;
    UnitInfo.make Unit.Angle "deg" (Quantity.value Quantity_Degree);
    UnitInfo.make Unit.Angle "°" (Quantity.value Quantity_Degree);
    (* Area *)
    UnitInfo.make Unit.Area "mm²" 1%float;
    UnitInfo.make Unit.Area "m²" 1e6%float;
    UnitInfo.make Unit.Area "km²" 1e12%float;
    (* Volume *)
    UnitInfo.make Unit.Volume "mm³" 1%float;
    UnitInfo.make Unit.Volume "m³" 1e9%float;
    UnitInfo.make Unit.Volume "km³" 1e18%float;
    (* Velocity *)
    UnitInfo.make Unit.Velocity "mm/s" 1%float;
    (* Density *)
    UnitInfo.make Unit.Density "kg/m³" 1%float;
    UnitInfo.make Unit.Density "g/m³" 1000%float;
    UnitInfo.make Unit.Density "g/cm³" 0.001%float;
    UnitInfo.make Unit.Density "g/mm³" 1e-6%float;
    (* Pressure *)
    UnitInfo.make Unit.Pressure "kPa" 1%float;
    UnitInfo.make Unit.Pressure "Pa" 0.001%float;
    UnitInfo.make Unit.Pressure "kPa" 1%float;
    UnitInfo.make Unit.Pressure "MPa" 1000%float;
    UnitInfo.make Unit.Pressure "GPa" 1e6%float ].

Definition arrayUnitInfo_ImperialUK : list UnitInfo.t :=
  [ (* Length *)
    UnitInfo.make Unit.Length "in" 25.4%float;
    UnitInfo.make Unit.Length "thou" 0.0254%float;
    UnitInfo.make Unit.Length double_quote 25.4%float;
    UnitInfo.make Unit.Length "'" 304.8%float;
    UnitInfo.make Unit.Length "yd" 914.4%float;
    UnitInfo.make Unit.Length "mi" 1609344%float;
    (* Others *)
    UnitInfo.make Unit.Area "in²" 654.16%float;
    UnitInfo.make Unit.Volume "in³" 16387.064%float;
    UnitInfo.make Unit.Velocity "in/min" (25.4 / 60)%float ].
End Tables.

Definition translateSI (value : float) (unit : Unit.t) : TranslateResult.t :=
  match unit with
  | Unit.Length => TranslateResult.make value (Some "mm") 1%float
  | Unit.Area => TranslateResult.make value (Some "mm²") 1%float
  | Unit.Volume => TranslateResult.make value (Some "mm³") 1%float
  | Unit.Velocity => TranslateResult.make value (Some "mm/s") 1%float
  | Unit.Density => TranslateResult.make value (Some "kg/m³") 1%float
  | Unit.Pressure => TranslateResult.make value (Some "kPa") 1%float
  | _ => TranslateResult.make value (Some (symbol unit)) 1%float
  end.

Definition translateImperialUK (value : float) (unit : Unit.t)
  : TranslateResult.t :=
  match unit with
  | Unit.Length =>
    TranslateResult.make (value / 25.4)%float (Some "in") 25.4%float
  | Unit.Area =>
    TranslateResult.make (value / 645.16)%float (Some "in²") 654.16%float
  | Unit.Volume =>
    TranslateResult.make (value / 16387.064)%float (Some "in³")
      16387.064%float
  | Unit.Velocity =>
    TranslateResult.make (value / (25.4 / 60))%float (Some "in/min")
      (25.4 / 60)%float
  | _ => TranslateResult.make value (Some (symbol unit)) 1%float
  end.

(** The case labels of the two switches above, [default] apart. *)
Definition translateSI_cases : list Unit.t :=
  [Unit.Length; Unit.Area; Unit.Volume; Unit.Velocity; Unit.Density;
   Unit.Pressure].

Definition translateImperialUK_cases : list Unit.t :=
  [Unit.Length; Unit.Area; Unit.Volume; Unit.Velocity].

End Internal.


(** ** class UnitSystem *)
Module UnitSystem.

(** The switch handles both enumerators, so the [assert(false)] behind it is
    not reached. *)
Definition translate (schema : Schema.t) (value : float) (unit : Unit.t)
  : TranslateResult.t :=
  match schema with
  | Schema.SI => Internal.translateSI value unit
  | Schema.ImperialUK => Internal.translateImperialUK value unit
  end.

(** The lambda [fnAssignUnit] of [parseQuantity].  The out-parameter
    [Unit* ptrUnit] is threaded as the content of the pointed cell:
    [None] is the null pointer, [Some u] a cell holding [u]. *)
Definition fnAssignUnit (ptrUnit : option Unit.t) (unit : Unit.t)
  : option Unit.t :=
  match ptrUnit with
  | Some _ => Some unit
  | None => None
  end.

(** One range-for loop of [parseQuantity] over a table: [Some] is the
    [return] taken inside the loop body (the result and the cell after
    [fnAssignUnit]), [None] is falling out of the loop. *)
Fixpoint for_unitInfo (v : float) (strUnit : string) (ptrUnit : option Unit.t)
    (array : list Internal.UnitInfo.t)
  : option (TranslateResult.t * option Unit.t) :=
  match array with
  | [] => None
  | unitInfo :: array' =>
      if String.eqb strUnit (Internal.UnitInfo.str unitInfo)
      then Some (TranslateResult.make v
                   (Some (Internal.UnitInfo.str unitInfo))
                   (Internal.UnitInfo.factor unitInfo),
                 fnAssignUnit ptrUnit (Internal.UnitInfo.unit unitInfo))
      else for_unitInfo v strUnit ptrUnit array'
  end.

Section Members.
Context {UC : UnitConstants} {FF : FastFloat}.

(** Returns the result together with the content of the cell behind
    [ptrUnit] on exit. *)
Definition parseQuantity (strQuantity : string) (ptrUnit : option Unit.t)
  : outcome (TranslateResult.t * option Unit.t) :=
  let ptrUnit := fnAssignUnit ptrUnit Unit.None in
  let (res, v) := from_chars strQuantity in
  match ec res with
  | errc_none =>
      match substr strQuantity (ptr res) with
      | Throws_out_of_range => Throws_out_of_range
      | Returns strUnit =>
          if empty strUnit
          then Returns (TranslateResult.make v None 1%float, ptrUnit)
          else
            match for_unitInfo v strUnit ptrUnit Internal.arrayUnitInfo_SI with
            | Some r => Returns r
            | None =>
                match for_unitInfo v strUnit ptrUnit
                        Internal.arrayUnitInfo_ImperialUK with
                | Some r => Returns r
                | None => Returns (TranslateResult.empty, ptrUnit)
                end
            end
      end
  | _ => Returns (TranslateResult.empty, ptrUnit)
  end.

Definition radians (angle : QuantityAngle) : TranslateResult.t :=
  TranslateResult.make (Quantity.value angle) (Some "rad") 1%float.

Definition degrees (angle : QuantityAngle) : TranslateResult.t :=
  let factor := Quantity.value Quantity_Degree in
  let rad := Quantity.value angle in
  TranslateResult.make (rad / factor)%float (Some "°") factor.

Definition meters (length : QuantityLength) : TranslateResult.t :=
  let factor := Quantity.value Quantity_Meter in
  let mm := Quantity.value length in
  TranslateResult.make (mm / factor)%float (Some "m") factor.

Definition millimeters (length : QuantityLength) : TranslateResult.t :=
  TranslateResult.make (Quantity.value length) (Some "mm") 1%float.

Definition cubicMillimeters (volume : QuantityVolume) : TranslateResult.t :=
  TranslateResult.make (Quantity.value volume) (Some "mm³") 1%float.

Definition millimetersPerSecond (speed : QuantityVelocity)
  : TranslateResult.t :=
  TranslateResult.make (Quantity.value speed) (Some "mm/s") 1%float.

Definition seconds (duration : QuantityTime) : TranslateResult.t :=
  TranslateResult.make (Quantity.value duration) (Some "s") 1%float.

End Members.
End UnitSystem.


(** ** Vocabulary of the statements *)

(** The case labels of the switch a schema is dispatched to. *)
Definition special_cases (schema : Schema.t) : list Unit.t :=
  match schema with
  | Schema.SI => Internal.translateSI_cases
  | Schema.ImperialUK => Internal.translateImperialUK_cases
  end.

(** The two tables in the order [parseQuantity] scans them. *)
Definition scanned_tables {UC : UnitConstants} : list Internal.UnitInfo.t :=
  Internal.arrayUnitInfo_SI ++ Internal.arrayUnitInfo_ImperialUK.

(** What the body of a table loop returns at the entry [e]. *)
Definition matched (v : float) (ptrUnit : option Unit.t)
    (e : Internal.UnitInfo.t) : TranslateResult.t * option Unit.t :=
  (TranslateResult.make v (Some (Internal.UnitInfo.str e))
     (Internal.UnitInfo.factor e),
   UnitSystem.fnAssignUnit ptrUnit (Internal.UnitInfo.unit e)).

(** The units whose symbol in [Internal::symbol] is not empty and stands in
    neither table. *)
Definition units_without_entry : list Unit.t :=
  [Unit.Mass; Unit.Time; Unit.ElectricCurrent; Unit.ThermodynamicTemperature;
   Unit.AmountOfSubstance; Unit.LuminousIntensity; Unit.Velocity;
   Unit.Acceleration; Unit.Pressure].

(** [from_chars] reads the number [v] at the start of [text] and stops in
    front of [strUnit]. *)
Definition reads_number {FF : FastFloat} (text : string) (v : float)
    (strUnit : string) : Prop :=
  exists res,
    from_chars text = (res, v) /\ ec res = errc_none
    /\ substr text (ptr res) = Returns strUnit.

(** [from_chars] reports an error on [text]. *)
Definition no_number {FF : FastFloat} (text : string) : Prop :=
  ec (fst (from_chars text)) <> errc_none.


(** ** A reference implementation of the parser interface

    Modelled from the spec: the parser of a leading floating-point literal,
    locale-independent, in the standard decimal and exponential formats; the
    library [fast_float] is not among the sources.  The grammar is the one of
    C++17 [std::from_chars] in the general format: an optional minus sign, a
    decimal significand with at least one digit, an optional exponent that
    is read only when a digit follows it; else [nan], [inf] or [infinity] in
    any letter case.  No leading white space, no leading plus sign.  The
    decimal number is rounded to the nearest binary64, ties to even.  The
    general statements below hold for every implementation of the interface;
    this one instantiates it for the examples. *)
Module Reference.

Definition is_integer (c : ascii) : bool :=
  (48 <=? nat_of_ascii c)%nat && (nat_of_ascii c <=? 57)%nat.

Definition digit_value (c : ascii) : Z := Z.of_nat (nat_of_ascii c) - 48.

(** Steps over the character [c] when [s] starts with it. *)
Definition skip_char (c : ascii) (s : string) : option string :=
  match s with
  | String c' s' => if Ascii.eqb c' c then Some s' else None
  | EmptyString => None
  end.

(** Reads digits: the number read so far, how many digits, the rest. *)
Fixpoint digits (s : string) (i : Z) (n : nat) : Z * nat * string :=
  match s with
  | String c s' =>
      if is_integer c then digits s' (10 * i + digit_value c)%Z (S n)
      else (i, n, s)
  | EmptyString => (i, n, s)
  end.

(** The exponent part at [s]: its value and the rest, or nothing when [s]
    does not start with an [e] or no digit follows the optional sign. *)
Definition exponent_part (s : string) : option (Z * string) :=
  match (match skip_char "e" s with
         | Some s1 => Some s1
         | None => skip_char "E" s
         end) with
  | Some s1 =>
      let '(neg_exp, s2) :=
        match skip_char "-" s1 with
        | Some s2 => (true, s2)
        | None =>
            match skip_char "+" s1 with
            | Some s2 => (false, s2)
            | None => (false, s1)
            end
        end in
      match digits s2 0%Z 0 with
      | (_, O, _) => None
      | (x, S _, rest) => Some (if neg_exp then (- x)%Z else x, rest)
      end
  | None => None
  end.

(** [negative] [i] * 10 ^ [e], correctly rounded. *)
Definition round_decimal (negative : bool) (i e : Z) : spec_float :=
  match i with
  | Zpos m =>
      if (0 <=? e)%Z
      then binary_normalize prec emax
             (if negative then (- (i * 10 ^ e))%Z else (i * 10 ^ e)%Z) 0%Z false
      else SFdiv prec emax (S754_finite negative m 0%Z)
             (S754_finite false (Z.to_pos (10 ^ (- e))) 0%Z)
  | _ => S754_zero negative
  end.

(** A non-zero number that rounds to zero or to an infinity is out of
    range. *)
Definition in_range (i : Z) (x : spec_float) : bool :=
  match x with
  | S754_infinity _ => false
  | S754_zero _ => (i =? 0)%Z
  | _ => true
  end.

(** The decimal number at the start of [s]: value, range flag, rest. *)
Definition parse_number_string (s : string)
  : option (spec_float * bool * string) :=
  let '(negative, s1) :=
    match skip_char "-" s with
    | Some s1 => (true, s1)
    | None => (false, s)
    end in
  let '(i1, n1, s2) := digits s1 0%Z 0 in
  let '(i2, n2, s3) :=
    match skip_char "." s2 with
    | Some s2' => digits s2' i1 0
    | None => (i1, 0, s2)
    end in
  match n1 + n2 with
  | O => None
  | S _ =>
      let '(exp_number, s4) :=
        match exponent_part s3 with
        | Some r => r
        | None => (0%Z, s3)
        end in
      let x := round_decimal negative i2 (exp_number - Z.of_nat n2) in
      Some (x, in_range i2 x, s4)
  end.

Definition to_lower (c : ascii) : ascii :=
  let n := nat_of_ascii c in
  if (65 <=? n)%nat && (n <=? 90)%nat then ascii_of_nat (n + 32) else c.

(** [s] starts with [word], letter case apart: the rest of [s]. *)
Fixpoint strncasecmp (s word : string) {struct word} : option string :=
  match word, s with
  | EmptyString, _ => Some s
  | String w word', String c s' =>
      if Ascii.eqb (to_lower c) w then strncasecmp s' word' else None
  | String _ _, EmptyString => None
  end.

Definition is_n_char (c : ascii) : bool :=
  let n := nat_of_ascii c in
  ((97 <=? n)%nat && (n <=? 122)%nat) || ((65 <=? n)%nat && (n <=? 90)%nat)
  || is_integer c || (n =? 95)%nat.

(** After an opening parenthesis: the rest after the closing one, when only
    letters, digits and underscores stand in between. *)
Fixpoint n_char_seq (s : string) : option string :=
  match s with
  | String c s' =>
      if Ascii.eqb c ")" then Some s'
      else if is_n_char c then n_char_seq s' else None
  | EmptyString => None
  end.

Definition parse_infnan (s : string) : option (spec_float * string) :=
  let '(minusSign, s1) :=
    match skip_char "-" s with
    | Some s1 => (true, s1)
    | None => (false, s)
    end in
  match strncasecmp s1 "nan" with
  | Some s2 =>
      match (match skip_char "(" s2 with
             | Some s3 => n_char_seq s3
             | None => None
             end) with
      | Some s4 => Some (S754_nan, s4)
      | None => Some (S754_nan, s2)
      end
  | None =>
      match strncasecmp s1 "inf" with
      | Some s2 =>
          match strncasecmp s2 "inity" with
          | Some s3 => Some (S754_infinity minusSign, s3)
          | None => Some (S754_infinity minusSign, s2)
          end
      | None => None
      end
  end.

Definition from_chars (s : string) : from_chars_result * float :=
  let at_rest (rest : string) := String.length s - String.length rest in
  match parse_number_string s with
  | Some (x, ok, rest) =>
      ({| ptr := at_rest rest;
          ec := if ok then errc_none else errc_result_out_of_range |},
       SF2Prim x)
  | None =>
      match parse_infnan s with
      | Some (x, rest) => ({| ptr := at_rest rest; ec := errc_none |}, SF2Prim x)
      | None => ({| ptr := 0; ec := errc_invalid_argument |}, 0%float)
      end
  end.

(** [sym] cannot continue a number text put in front of it. *)
Definition ends_number (sym : string) : bool :=
  match sym with
  | EmptyString => true
  | String c _ =>
      negb (is_integer c)
      && negb (existsb (Ascii.eqb c) ["."; "e"; "E"; "+"; "-"; "("]%char)
      && match strncasecmp sym "inity" with
         | Some _ => false
         | None => true
         end
  end.

Lemma from_chars_ptr_le (s : string) :
  ptr (fst (from_chars s)) <= String.length s.
Proof.
  unfold from_chars.
  destruct (parse_number_string s) as [[[x ok] rest] | ]; simpl; [lia | ].
  destruct (parse_infnan s) as [[x rest] | ]; simpl; lia.
Qed.

Definition fast_float : FastFloat :=
  Build_FastFloat from_chars from_chars_ptr_le.

End Reference.

(** Modelled from the spec: the degree-to-radian and the meter-to-millimeter
    constants of [unit.h], pi / 180 and 1000, for the examples. *)
Definition unit_h : UnitConstants :=
  {| Quantity_Degree := Quantity.make 0.017453292519943295%float;
     Quantity_Meter := Quantity.make 1000%float |}.

(** [parseQuantity] over the reference parser. *)
Definition parseQuantity_ref : string -> option Unit.t
    -> outcome (TranslateResult.t * option Unit.t) :=
  @UnitSystem.parseQuantity unit_h Reference.fast_float.


(** The units on which the two schemas differ. *)
Definition schema_dependent : list Unit.t :=
  [Unit.Length; Unit.Area; Unit.Volume; Unit.Velocity; Unit.Pressure].

(** ** Reading back what is displayed *)

Section ParseBack.
Context {UC : UnitConstants} {FF : FastFloat}.

(** Behind any number text, the symbol [sym] is parsed to the factor [f]
    and the unit [u]. *)
Definition parses_back (sym : string) (f : float) (u : Unit.t) : Prop :=
  forall (num : string) (v : float) (ptrUnit : option Unit.t),
    reads_number (num ++ sym) v sym ->
    UnitSystem.parseQuantity (num ++ sym) ptrUnit
    = Returns (TranslateResult.make v (Some sym) f,
               match ptrUnit with
               | Some _ => Some u
               | None => None
               end).

(** Behind any number text, the symbol [sym] makes [parseQuantity] fail. *)
Definition refused (sym : string) : Prop :=
  forall (num : string) (v : float) (ptrUnit : option Unit.t),
    reads_number (num ++ sym) v sym ->
    UnitSystem.parseQuantity (num ++ sym) ptrUnit
    = Returns (TranslateResult.empty,
               match ptrUnit with
               | Some _ => Some Unit.None
               | None => None
               end).

(** The symbol of the result [r] is parsed back to the factor of [r] and
    the unit [u]. *)
Definition parsed_back_as (u : Unit.t) (r : TranslateResult.t) : Prop :=
  exists sym,
    TranslateResult.strUnit r = Some sym
    /\ parses_back sym (TranslateResult.factor r) u.

End ParseBack.


(** * io_image.cpp: the selection of an image writer

    Of [Mayo::IO::ImageWriter] the part that is plain data handling:
    [transfer] sorts the application items into the two sets the writer
    renders from, and the factory hands out writers.  The types of the other
    headers ([ApplicationItem], [DocumentPtr], [TDF_Label], [Format], the
    parameters) are parameters; of an application item the code calls
    [isDocument], [isDocumentTreeNode], [document] and
    [documentTreeNode().label()].  A [std::unordered_set] is a list without
    repetition ([insert] leaves the set alone when the element is in it);
    the statements speak of membership only. *)
Module IO.
Section ImageWriter.
Variables GuiApplication Parameters DocumentPtr TDF_Label : Type.
Variable ApplicationItem Format : Type.
Variable DocumentPtr_eq_dec : forall a b : DocumentPtr, {a = b} + {a <> b}.
Variable TDF_Label_eq_dec : forall a b : TDF_Label, {a = b} + {a <> b}.
Variable Format_eq_dec : forall a b : Format, {a = b} + {a <> b}.
Variables isDocument isDocumentTreeNode : ApplicationItem -> bool.
Variable document : ApplicationItem -> DocumentPtr.
Variable documentTreeNode_label : ApplicationItem -> TDF_Label.
(* [Format_Image], and the parameters a new writer starts with *)
Variable Format_Image : Format.
Variable Parameters_default : Parameters.

Record ImageWriter : Type := {
  m_guiApp : GuiApplication;
  m_params : Parameters;
  m_setDoc : set DocumentPtr;
  m_setNode : set TDF_Label
}.

(** The first loop of [transfer]. *)
Definition transfer_documents (appItems : list ApplicationItem)
  : set DocumentPtr :=
  fold_left
    (fun setDoc item =>
       if isDocument item
       then set_add DocumentPtr_eq_dec (document item) setDoc
       else setDoc)
    appItems (empty_set DocumentPtr).

(** The second loop of [transfer], over the set the first one built. *)
Definition transfer_nodes (setDoc : set DocumentPtr)
    (appItems : list ApplicationItem) : set TDF_Label :=
  fold_left
    (fun setNode item =>
       if isDocumentTreeNode item
       then if set_mem DocumentPtr_eq_dec (document item) setDoc
            then setNode
            else set_add TDF_Label_eq_dec (documentTreeNode_label item) setNode
       else setNode)
    appItems (empty_set TDF_Label).

Definition transfer (this : ImageWriter) (appItems : list ApplicationItem)
  : bool * ImageWriter :=
  let setDoc := transfer_documents appItems in
  let setNode := transfer_nodes setDoc appItems in
  (true,
   {| m_guiApp := m_guiApp this; m_params := m_params this;
      m_setDoc := setDoc; m_setNode := setNode |}).

(** [ImageFactoryWriter]: the formats it serves and the writers it makes;
    a null [unique_ptr] is [None]. *)
Definition formats : list Format := [Format_Image].

Definition create (guiApp : GuiApplication) (format : Format)
  : option ImageWriter :=
  if Format_eq_dec format Format_Image
  then Some {| m_guiApp := guiApp; m_params := Parameters_default;
               m_setDoc := empty_set DocumentPtr;
               m_setNode := empty_set TDF_Label |}
  else None.

End ImageWriter.
End IO.


(** A small application for the examples: documents and labels are
    numbers, an item is a document or a tree node of a document. *)
Inductive sample_item : Set :=
| sample_document (doc : nat)
| sample_node (doc label : nat).

Definition sample_isDocument (item : sample_item) : bool :=
  match item with sample_document _ => true | sample_node _ _ => false end.

Definition sample_isDocumentTreeNode (item : sample_item) : bool :=
  match item with sample_document _ => false | sample_node _ _ => true end.

Definition sample_doc (item : sample_item) : nat :=
  match item with sample_document d => d | sample_node d _ => d end.

Definition sample_label (item : sample_item) : nat :=
  match item with sample_document _ => 0 | sample_node _ l => l end.

Definition sample_transfer (appItems : list sample_item)
  : bool * IO.ImageWriter unit unit nat nat :=
  IO.transfer unit unit nat nat sample_item Nat.eq_dec Nat.eq_dec
    sample_isDocument sample_isDocumentTreeNode sample_doc sample_label
    {| IO.m_guiApp := tt; IO.m_params := tt;
       IO.m_setDoc := [5]; IO.m_setNode := [6] |}
    appItems.


(** * Properties *)

Local Open Scope list_scope.

(** Two binary64 constants that differ are told apart by comparing them. *)
Ltac float_discriminate :=
  let H := fresh "H" in
  intro H;
  match type of H with
  | _ = ?b => apply (f_equal (fun x => PrimFloat.eqb x b)) in H
  end;
  vm_compute in H; discriminate H.

(** ** translate *)

(** SI never rescales, whatever the unit. *)
Lemma translateSI_identity (v : float) (u : Unit.t) :
  TranslateResult.value (Internal.translateSI v u) = v
  /\ TranslateResult.factor (Internal.translateSI v u) = 1%float.
Proof. destruct u; split; reflexivity. Qed.

(** Outside the case labels both translators take the [default] branch. *)
Lemma translateSI_default (v : float) (u : Unit.t) :
  ~ In u Internal.translateSI_cases ->
  Internal.translateSI v u
  = TranslateResult.make v (Some (Internal.symbol u)) 1%float.
Proof.
  intros Hu. destruct u; try reflexivity;
    exfalso; apply Hu; unfold Internal.translateSI_cases; simpl; tauto.
Qed.

Lemma translateImperialUK_default (v : float) (u : Unit.t) :
  ~ In u Internal.translateImperialUK_cases ->
  Internal.translateImperialUK v u
  = TranslateResult.make v (Some (Internal.symbol u)) 1%float.
Proof.
  intros Hu. destruct u; try reflexivity;
    exfalso; apply Hu; unfold Internal.translateImperialUK_cases; simpl; tauto.
Qed.

Lemma translate_default (schema : Schema.t) (u : Unit.t) (v : float) :
  ~ In u (special_cases schema) ->
  UnitSystem.translate schema v u
  = TranslateResult.make v (Some (Internal.symbol u)) 1%float.
Proof.
  destruct schema; simpl; intros Hu.
  - now apply translateSI_default.
  - now apply translateImperialUK_default.
Qed.

(** In the ImperialUK cases for Length, Volume and Velocity the divisor is
    the factor that is returned. *)
Lemma translateImperialUK_divides_by_factor (v : float) (u : Unit.t) :
  In u [Unit.Length; Unit.Volume; Unit.Velocity] ->
  let r := Internal.translateImperialUK v u in
  TranslateResult.value r = (v / TranslateResult.factor r)%float.
Proof.
  simpl. intros [<- | [<- | [<- | []]]]; reflexivity.
Qed.

(** In the Area case the divisor and the factor are two different
    constants. *)
Lemma translateImperialUK_Area (v : float) :
  Internal.translateImperialUK v Unit.Area
  = TranslateResult.make (v / 645.16)%float (Some "in²") 654.16%float
  /\ 645.16%float <> 654.16%float.
Proof. split; [reflexivity | float_discriminate]. Qed.

(** C1: the factor is not always the constant that takes the displayed value
    back to the base value.  Under ImperialUK the area 645.16 mm² (one square
    inch) is displayed as 1 with factor 654.16, and 1 * 654.16 is not
    645.16. *)
Theorem translate_ImperialUK_Area_factor_mismatch :
  let v := 645.16%float in
  let r := UnitSystem.translate Schema.ImperialUK v Unit.Area in
  r = TranslateResult.make 1%float (Some "in²") 654.16%float
  /\ v <> (TranslateResult.value r * TranslateResult.factor r)%float.
Proof.
  split.
  - vm_compute. reflexivity.
  - vm_compute. float_discriminate.
Qed.

(** C2: under ImperialUK a length [v] is returned as [v / 25.4] inches with
    factor 25.4, and a velocity [v] as [v / (25.4 / 60)] inches per minute
    with factor [25.4 / 60]. *)
Theorem translate_ImperialUK_Length_Velocity (v : float) :
  UnitSystem.translate Schema.ImperialUK v Unit.Length
  = TranslateResult.make (v / 25.4)%float (Some "in") 25.4%float
  /\ UnitSystem.translate Schema.ImperialUK v Unit.Velocity
     = TranslateResult.make (v / (25.4 / 60))%float (Some "in/min")
         (25.4 / 60)%float.
Proof. split; reflexivity. Qed.

(** C3: for each unit with a case of its own in the SI translator (Length,
    Area, Volume, Velocity, Density, Pressure) the result has factor 1 and the
    value it was given. *)
Theorem translate_SI_relabels (u : Unit.t) (v : float) :
  In u Internal.translateSI_cases ->
  TranslateResult.factor (UnitSystem.translate Schema.SI v u) = 1%float
  /\ TranslateResult.value (UnitSystem.translate Schema.SI v u) = v.
Proof.
  intros _. destruct (translateSI_identity v u) as [Hv Hf].
  split; assumption.
Qed.

Lemma translate_SI_relabels_witness :
  In Unit.Pressure Internal.translateSI_cases
  /\ TranslateResult.factor
       (UnitSystem.translate Schema.SI 101.325%float Unit.Pressure) = 1%float
  /\ TranslateResult.value
       (UnitSystem.translate Schema.SI 101.325%float Unit.Pressure)
     = 101.325%float.
Proof.
  split.
  - simpl. tauto.
  - apply (translate_SI_relabels Unit.Pressure 101.325%float). simpl. tauto.
Defined.

(** C7: for a unit the schema's translator has no case for, the value comes
    back unchanged with factor 1 and the symbol of [Internal::symbol]; that
    mapping has a case for every enumerator (it never yields its trailing
    question mark).  Mass, Time, ElectricCurrent and Angle are such units
    under both schemas, Density and Pressure under ImperialUK. *)
Theorem translate_fallback :
  (forall (schema : Schema.t) (u : Unit.t) (v : float),
      ~ In u (special_cases schema) ->
      UnitSystem.translate schema v u
      = TranslateResult.make v (Some (Internal.symbol u)) 1%float)
  /\ (forall u : Unit.t, Internal.symbol u <> "?")
  /\ (forall schema u,
         In u [Unit.Mass; Unit.Time; Unit.ElectricCurrent; Unit.Angle] ->
         ~ In u (special_cases schema))
  /\ (forall u, In u [Unit.Density; Unit.Pressure] ->
                ~ In u (special_cases Schema.ImperialUK)).
Proof.
  repeat split.
  - intros schema u v Hu. now apply translate_default.
  - intros []; discriminate.
  - intros [] u Hu Hin; simpl in Hu, Hin;
      repeat (destruct Hu as [<- | Hu]; [ intuition discriminate | ]);
      exact Hu.
  - intros u Hu Hin; simpl in Hu, Hin;
      repeat (destruct Hu as [<- | Hu]; [ intuition discriminate | ]);
      exact Hu.
Qed.

Lemma translate_fallback_witness :
  ~ In Unit.Density (special_cases Schema.ImperialUK)
  /\ UnitSystem.translate Schema.ImperialUK 7.85%float Unit.Density
     = TranslateResult.make 7.85%float (Some "kg/m³") 1%float.
Proof.
  assert (H : ~ In Unit.Density (special_cases Schema.ImperialUK)).
  { simpl. intuition discriminate. }
  split; [exact H | ].
  exact (proj1 translate_fallback Schema.ImperialUK Unit.Density 7.85%float H).
Defined.

(** ** String views and the table loops *)

Lemma substr_in_range (sv : string) (pos : nat) :
  pos <= String.length sv -> exists strUnit, substr sv pos = Returns strUnit.
Proof.
  revert sv. induction pos as [| pos IH]; intros sv Hle.
  - exists sv. reflexivity.
  - destruct sv as [| c sv]; simpl in *; [lia | ].
    apply IH. lia.
Qed.

Lemma substr_app (num sym : string) :
  substr (num ++ sym) (String.length num) = Returns sym.
Proof.
  induction num as [| c num IH]; simpl.
  - reflexivity.
  - exact IH.
Qed.

Lemma length_app (num sym : string) :
  String.length (num ++ sym) = String.length num + String.length sym.
Proof. induction num as [| c num IH]; simpl; [reflexivity | now rewrite IH]. Qed.

Lemma empty_false_iff (sv : string) : empty sv = false <-> sv <> "".
Proof. destruct sv; simpl; split; congruence. Qed.

Lemma fnAssignUnit_again (ptrUnit : option Unit.t) (u u' : Unit.t) :
  UnitSystem.fnAssignUnit (UnitSystem.fnAssignUnit ptrUnit u) u'
  = UnitSystem.fnAssignUnit ptrUnit u'.
Proof. destruct ptrUnit; reflexivity. Qed.

Section Loop.
Variables (v : float) (strUnit : string) (ptrUnit : option Unit.t).

(** Two loops in a row scan the concatenation of their tables. *)
Lemma for_unitInfo_app (a b : list Internal.UnitInfo.t) :
  UnitSystem.for_unitInfo v strUnit ptrUnit (a ++ b)
  = match UnitSystem.for_unitInfo v strUnit ptrUnit a with
    | Some r => Some r
    | None => UnitSystem.for_unitInfo v strUnit ptrUnit b
    end.
Proof.
  induction a as [| e a IH]; simpl.
  - reflexivity.
  - destruct (String.eqb strUnit (Internal.UnitInfo.str e)); [reflexivity | exact IH].
Qed.

(** The loop falls through exactly when no entry carries the suffix. *)
Lemma for_unitInfo_None (a : list Internal.UnitInfo.t) :
  UnitSystem.for_unitInfo v strUnit ptrUnit a = None
  <-> forall e, In e a -> Internal.UnitInfo.str e <> strUnit.
Proof.
  induction a as [| e a IH]; simpl.
  - split; [intros _ e [] | reflexivity].
  - destruct (String.eqb_spec strUnit (Internal.UnitInfo.str e)) as [Heq | Hne].
    + split; [discriminate | ].
      intros H. exfalso. apply (H e); [now left | now symmetry].
    + rewrite IH. split.
      * intros H e' [<- | Hin]; [congruence | now apply H].
      * intros H e' Hin. apply H. now right.
Qed.

(** The loop returns at the first entry that carries the suffix. *)
Lemma for_unitInfo_first (pre post : list Internal.UnitInfo.t)
    (e : Internal.UnitInfo.t) :
  (forall e', In e' pre -> Internal.UnitInfo.str e' <> strUnit) ->
  Internal.UnitInfo.str e = strUnit ->
  UnitSystem.for_unitInfo v strUnit ptrUnit (pre ++ e :: post)
  = Some (matched v ptrUnit e).
Proof.
  intros Hpre He. rewrite for_unitInfo_app.
  apply for_unitInfo_None in Hpre. rewrite Hpre. simpl.
  rewrite <- He, String.eqb_refl. reflexivity.
Qed.

(** Whatever the loop returns comes from an entry that carries the suffix,
    with no such entry before it. *)
Lemma for_unitInfo_Some (a : list Internal.UnitInfo.t)
    (r : TranslateResult.t * option Unit.t) :
  UnitSystem.for_unitInfo v strUnit ptrUnit a = Some r ->
  exists pre e post,
    a = pre ++ e :: post
    /\ (forall e', In e' pre -> Internal.UnitInfo.str e' <> strUnit)
    /\ Internal.UnitInfo.str e = strUnit
    /\ r = matched v ptrUnit e.
Proof.
  induction a as [| e a IH]; simpl; [discriminate | ].
  destruct (String.eqb_spec strUnit (Internal.UnitInfo.str e)) as [Heq | Hne].
  - intros [= <-]. exists [], e, a.
    split; [reflexivity | ]. split; [intros e' [] | ]. split; [now symmetry | reflexivity].
  - intros H. destruct (IH H) as (pre & e0 & post & -> & Hpre & He0 & ->).
    exists (e :: pre), e0, post.
    split; [reflexivity | ]. split; [ | split; [exact He0 | reflexivity]].
    intros e' [<- | Hin]; [congruence | now apply Hpre].
Qed.

End Loop.

(** ** parseQuantity *)

Section ParseQuantity.
Context {UC : UnitConstants} {FF : FastFloat}.
Variables (text : string) (ptrUnit : option Unit.t).

(** The cell behind [ptrUnit] after the first statement. *)
Let cell0 : option Unit.t := UnitSystem.fnAssignUnit ptrUnit Unit.None.

Lemma parseQuantity_no_number :
  no_number text ->
  UnitSystem.parseQuantity text ptrUnit
  = Returns (TranslateResult.empty, cell0).
Proof.
  unfold no_number, UnitSystem.parseQuantity.
  destruct (from_chars text) as [res v]; simpl.
  destruct (ec res); [congruence | reflexivity | reflexivity].
Qed.

Lemma parseQuantity_number (v : float) (strUnit : string) :
  reads_number text v strUnit ->
  UnitSystem.parseQuantity text ptrUnit
  = Returns
      (if empty strUnit then (TranslateResult.make v None 1%float, cell0)
       else match UnitSystem.for_unitInfo v strUnit cell0 scanned_tables with
            | Some r => r
            | None => (TranslateResult.empty, cell0)
            end).
Proof.
  intros (res & Hfc & Hec & Hsub).
  unfold UnitSystem.parseQuantity, scanned_tables.
  rewrite Hfc, Hec, Hsub, for_unitInfo_app.
  destruct (empty strUnit); [reflexivity | ].
  destruct (UnitSystem.for_unitInfo v strUnit _ Internal.arrayUnitInfo_SI);
    [reflexivity | ].
  destruct (UnitSystem.for_unitInfo v strUnit _ Internal.arrayUnitInfo_ImperialUK);
    reflexivity.
Qed.

(** Either [from_chars] reports an error or it reads a number and leaves a
    suffix: the pointer it returns lies in the text, so [substr] does not
    throw. *)
Lemma from_chars_cases :
  no_number text \/ exists v strUnit, reads_number text v strUnit.
Proof.
  unfold no_number, reads_number.
  pose proof (from_chars_ptr text) as Hptr.
  destruct (from_chars text) as [res v] eqn:Hfc; simpl in *.
  destruct (ec res) eqn:Hec; [right | left; congruence | left; congruence].
  destruct (substr_in_range text (ptr res) Hptr) as [strUnit Hsub].
  exists v, strUnit, res. auto.
Qed.

Lemma reads_number_not_no_number (v : float) (strUnit : string) :
  reads_number text v strUnit -> ~ no_number text.
Proof.
  intros (res & Hfc & Hec & _) Hno. unfold no_number in Hno.
  rewrite Hfc in Hno. simpl in Hno. congruence.
Qed.

Lemma reads_number_unique (v v' : float) (strUnit strUnit' : string) :
  reads_number text v strUnit -> reads_number text v' strUnit' ->
  v = v' /\ strUnit = strUnit'.
Proof.
  intros (res & Hfc & _ & Hsub) (res' & Hfc' & _ & Hsub').
  rewrite Hfc in Hfc'. injection Hfc' as <- <-.
  rewrite Hsub in Hsub'. injection Hsub' as <-. auto.
Qed.

(** [parseQuantity] always returns: the exception of [substr] is not
    raised. *)
Lemma parseQuantity_returns :
  exists r cell, UnitSystem.parseQuantity text ptrUnit = Returns (r, cell).
Proof.
  destruct from_chars_cases as [Hno | (v & strUnit & Hrd)].
  - rewrite (parseQuantity_no_number Hno). eauto.
  - rewrite (parseQuantity_number v strUnit Hrd).
    destruct (empty strUnit); [eauto | ].
    destruct (UnitSystem.for_unitInfo _ _ _ _) as [[r cell] | ]; eauto.
Qed.

End ParseQuantity.

(** The results with a symbol, and the one with factor 1, are not the
    value-initialised result. *)
Lemma symbol_not_empty (v : float) (s : string) (f : float) :
  TranslateResult.make v (Some s) f <> TranslateResult.empty.
Proof. unfold TranslateResult.empty. congruence. Qed.

Lemma no_symbol_not_empty (v : float) :
  TranslateResult.make v None 1%float <> TranslateResult.empty.
Proof.
  unfold TranslateResult.empty. intros H.
  apply (f_equal TranslateResult.factor) in H. simpl in H.
  revert H. float_discriminate.
Qed.

(** C4: [parseQuantity] returns the value-initialised result exactly when
    [from_chars] reports an error or the non-empty suffix left behind the
    number is the symbol of no entry of the two tables; in both cases the
    cell behind a non-null [ptrUnit] holds [Unit::None], written by the
    first statement. *)
Theorem parseQuantity_failure_iff {UC : UnitConstants} {FF : FastFloat}
    (text : string) (ptrUnit : option Unit.t) :
  exists r cell,
    UnitSystem.parseQuantity text ptrUnit = Returns (r, cell)
    /\ (r = TranslateResult.empty
        <-> no_number text
            \/ exists v strUnit,
                 reads_number text v strUnit /\ strUnit <> ""
                 /\ forall e, In e scanned_tables ->
                              Internal.UnitInfo.str e <> strUnit)
    /\ (r = TranslateResult.empty ->
        cell = UnitSystem.fnAssignUnit ptrUnit Unit.None
        /\ forall u0, ptrUnit = Some u0 -> cell = Some Unit.None).
Proof.
  assert (Hcell : forall cell,
             cell = UnitSystem.fnAssignUnit ptrUnit Unit.None ->
             cell = UnitSystem.fnAssignUnit ptrUnit Unit.None
             /\ forall u0, ptrUnit = Some u0 -> cell = Some Unit.None).
  { intros cell ->. split; [reflexivity | ]. intros u0 ->. reflexivity. }
  destruct (from_chars_cases text) as [Hno | (v & strUnit & Hrd)].
  - exists TranslateResult.empty, (UnitSystem.fnAssignUnit ptrUnit Unit.None).
    split; [now apply parseQuantity_no_number | ].
    split; [tauto | auto].
  - pose proof (parseQuantity_number text ptrUnit v strUnit Hrd) as Hpq.
    destruct (empty strUnit) eqn:Hemp.
    + (* no suffix: factor 1 *)
      eexists _, _. split; [exact Hpq | ].
      split; [ | intros H; now apply no_symbol_not_empty in H].
      split; [intros H; now apply no_symbol_not_empty in H | ].
      intros [Hno | (v' & strUnit' & Hrd' & Hne & _)].
      * now apply (reads_number_not_no_number text v strUnit) in Hno.
      * destruct (reads_number_unique text _ _ _ _ Hrd Hrd') as [_ <-].
        destruct strUnit; [congruence | discriminate].
    + apply empty_false_iff in Hemp.
      destruct (UnitSystem.for_unitInfo v strUnit _ scanned_tables)
        as [r | ] eqn:Hloop.
      * (* a table entry matches: the result has a symbol *)
        destruct (for_unitInfo_Some _ _ _ _ _ Hloop)
          as (pre & e & post & Htab & _ & He & ->).
        eexists _, _. split; [exact Hpq | ].
        split; [ | intros H; now apply symbol_not_empty in H].
        split; [intros H; now apply symbol_not_empty in H | ].
        intros [Hno | (v' & strUnit' & Hrd' & _ & Hall)].
        -- now apply (reads_number_not_no_number text v strUnit) in Hno.
        -- destruct (reads_number_unique text _ _ _ _ Hrd Hrd') as [_ <-].
           exfalso. apply (Hall e); [ | exact He].
           rewrite Htab. apply in_or_app. right. now left.
      * (* no entry matches *)
        eexists _, _. split; [exact Hpq | ].
        split; [ | auto].
        split; [ | reflexivity].
        intros _. right. exists v, strUnit.
        split; [exact Hrd | ]. split; [exact Hemp | ].
        now apply (for_unitInfo_None v strUnit
                     (UnitSystem.fnAssignUnit ptrUnit Unit.None)).
Qed.

(** On the text ["12.5furlong"] the reference parser reads 12.5 and no entry
    is named [furlong]; on ["abc"] it reads nothing. *)
Lemma parseQuantity_failure_iff_witness :
  parseQuantity_ref "12.5furlong" (Some Unit.Length)
  = Returns (TranslateResult.empty, Some Unit.None)
  /\ parseQuantity_ref "abc" (Some Unit.Length)
     = Returns (TranslateResult.empty, Some Unit.None)
  /\ exists r cell,
       parseQuantity_ref "12.5furlong" (Some Unit.Length) = Returns (r, cell)
       /\ (r = TranslateResult.empty
           <-> @no_number Reference.fast_float "12.5furlong"
               \/ exists v strUnit,
                    @reads_number Reference.fast_float "12.5furlong" v strUnit
                    /\ strUnit <> ""
                    /\ forall e, In e (@scanned_tables unit_h) ->
                                 Internal.UnitInfo.str e <> strUnit)
       /\ (r = TranslateResult.empty ->
           cell = UnitSystem.fnAssignUnit (Some Unit.Length) Unit.None
           /\ forall u0, Some Unit.Length = Some u0 -> cell = Some Unit.None).
Proof.
  split; [vm_compute; reflexivity | ].
  split; [vm_compute; reflexivity | ].
  exact (@parseQuantity_failure_iff unit_h Reference.fast_float
           "12.5furlong" (Some Unit.Length)).
Defined.

(** C5: behind a number, a non-empty suffix is looked up in the SI table
    and then in the ImperialUK table, in table order, by equality of the
    symbol; at the first entry that matches, the cell behind a non-null
    [ptrUnit] receives the unit of the entry and the result is the number
    read, the symbol and the factor of the entry.  So ["25.4mm"] gives
    [(25.4, "mm", 1)] and the unit Length. *)
Theorem parseQuantity_first_match :
  (forall (UC : UnitConstants) (FF : FastFloat) (text : string)
          (ptrUnit : option Unit.t) (v : float) (strUnit : string)
          (pre post : list Internal.UnitInfo.t) (e : Internal.UnitInfo.t),
      reads_number text v strUnit ->
      strUnit <> "" ->
      Internal.arrayUnitInfo_SI ++ Internal.arrayUnitInfo_ImperialUK
      = pre ++ e :: post ->
      (forall e', In e' pre -> Internal.UnitInfo.str e' <> strUnit) ->
      Internal.UnitInfo.str e = strUnit ->
      UnitSystem.parseQuantity text ptrUnit
      = Returns (TranslateResult.make v (Some (Internal.UnitInfo.str e))
                   (Internal.UnitInfo.factor e),
                 match ptrUnit with
                 | Some _ => Some (Internal.UnitInfo.unit e)
                 | None => None
                 end))
  /\ parseQuantity_ref "25.4mm" (Some Unit.None)
     = Returns (TranslateResult.make 25.4%float (Some "mm") 1%float,
                Some Unit.Length).
Proof.
  split; [ | vm_compute; reflexivity].
  intros UC FF text ptrUnit v strUnit pre post e Hrd Hne Htab Hpre He.
  rewrite (parseQuantity_number text ptrUnit v strUnit Hrd).
  apply empty_false_iff in Hne. rewrite Hne.
  unfold scanned_tables. rewrite Htab.
  rewrite (for_unitInfo_first v strUnit _ pre post e Hpre He).
  unfold matched. rewrite fnAssignUnit_again.
  destruct ptrUnit; reflexivity.
Qed.

(** The reference parser reads 90 in front of ["deg"]; the entry of that
    symbol is the ninth of the SI table. *)
Lemma parseQuantity_first_match_witness :
  parseQuantity_ref "90deg" (Some Unit.None)
  = Returns (TranslateResult.make 90%float (Some "deg")
               0.017453292519943295%float,
             Some Unit.Angle).
Proof.
  refine (proj1 parseQuantity_first_match unit_h Reference.fast_float
            "90deg" (Some Unit.None) 90%float "deg"
            (firstn 8 (@Internal.arrayUnitInfo_SI unit_h))
            (skipn 9 (@Internal.arrayUnitInfo_SI unit_h)
               ++ Internal.arrayUnitInfo_ImperialUK)
            (Internal.UnitInfo.make Unit.Angle "deg"
               0.017453292519943295%float)
            _ _ _ _ _).
  - exists {| ptr := 2; ec := errc_none |}. vm_compute. auto.
  - discriminate.
  - reflexivity.
  - simpl. intros e' H.
    repeat (destruct H as [<- | H]; [discriminate | ]). destruct H.
  - reflexivity.
Defined.

(** C8: behind a number, an empty suffix gives the number read with no
    symbol and factor 1, and the cell behind a non-null [ptrUnit] holds
    [Unit::None]; so ["42"] gives [(42, nullptr, 1)]. *)
Theorem parseQuantity_no_suffix :
  (forall (UC : UnitConstants) (FF : FastFloat) (text : string) (v : float),
      reads_number text v "" ->
      (forall u0,
          UnitSystem.parseQuantity text (Some u0)
          = Returns (TranslateResult.make v None 1%float, Some Unit.None))
      /\ UnitSystem.parseQuantity text None
         = Returns (TranslateResult.make v None 1%float, None))
  /\ parseQuantity_ref "42" (Some Unit.Length)
     = Returns (TranslateResult.make 42%float None 1%float, Some Unit.None).
Proof.
  split; [ | vm_compute; reflexivity].
  intros UC FF text v Hrd. split; [intros u0 | ];
    rewrite (parseQuantity_number text _ v "" Hrd); reflexivity.
Qed.

Lemma parseQuantity_no_suffix_witness :
  @reads_number Reference.fast_float "-1.5e3" (-1500)%float ""
  /\ parseQuantity_ref "-1.5e3" (Some Unit.Volume)
     = Returns (TranslateResult.make (-1500)%float None 1%float,
                Some Unit.None).
Proof.
  assert (Hrd : @reads_number Reference.fast_float "-1.5e3" (-1500)%float "").
  { exists {| ptr := 6; ec := errc_none |}. vm_compute. auto. }
  split; [exact Hrd | ].
  exact (proj1 (proj1 parseQuantity_no_suffix unit_h Reference.fast_float
                  "-1.5e3" (-1500)%float Hrd) Unit.Volume).
Defined.

(** C9: [degrees] divides the radians by the degree constant and returns
    that constant as factor, with the degree sign; [meters] divides the
    millimeters by the meter constant and returns that constant as factor,
    with the symbol [m].  Both take the quantity alone, no schema.  With
    pi / 180 and 1000 for the constants, pi radians are 180 degrees and
    2500 millimeters are 2.5 meters. *)
Theorem degrees_meters :
  (forall (UC : UnitConstants) (angle : QuantityAngle),
      UnitSystem.degrees angle
      = TranslateResult.make
          (Quantity.value angle / Quantity.value Quantity_Degree)%float
          (Some "°") (Quantity.value Quantity_Degree))
  /\ (forall (UC : UnitConstants) (length : QuantityLength),
         UnitSystem.meters length
         = TranslateResult.make
             (Quantity.value length / Quantity.value Quantity_Meter)%float
             (Some "m") (Quantity.value Quantity_Meter))
  /\ @UnitSystem.degrees unit_h (Quantity.make 3.141592653589793%float)
     = TranslateResult.make 180%float (Some "°") 0.017453292519943295%float
  /\ @UnitSystem.meters unit_h (Quantity.make 2500%float)
     = TranslateResult.make 2.5%float (Some "m") 1000%float.
Proof.
  split; [reflexivity | split; [reflexivity | ] ].
  split; vm_compute; reflexivity.
Qed.

(** ** The tables as a map from symbols *)

Section Tables.
Context {UC : UnitConstants}.

(** No entry carries [s], decided by running a table loop. *)
Lemma no_entry_iff (s : string) :
  (forall e, In e scanned_tables -> Internal.UnitInfo.str e <> s)
  <-> UnitSystem.for_unitInfo 0%float s None scanned_tables = None.
Proof. symmetry. apply for_unitInfo_None. Qed.

(** No symbol of the tables is empty. *)
Lemma table_symbols_not_empty (e : Internal.UnitInfo.t) :
  In e scanned_tables -> Internal.UnitInfo.str e <> "".
Proof.
  revert e. apply no_entry_iff. reflexivity.
Qed.

(** Symbols are repeated in the SI table ([mm], [m], [kPa]), each time with
    the same unit and factor: the first entry of a symbol stands for all
    entries of that symbol. *)
Lemma first_entry_of_symbol (v : float) (cell : option Unit.t)
    (e : Internal.UnitInfo.t) :
  In e scanned_tables ->
  UnitSystem.for_unitInfo v (Internal.UnitInfo.str e) cell scanned_tables
  = Some (matched v cell e).
Proof.
  unfold scanned_tables, Internal.arrayUnitInfo_SI,
    Internal.arrayUnitInfo_ImperialUK.
  intros Hin. simpl in Hin.
  repeat (destruct Hin as [<- | Hin]; [reflexivity | ]).
  destruct Hin.
Qed.

(** Which symbols of [Internal::symbol] the tables lack. *)
Lemma units_without_entry_iff (u : Unit.t) :
  In u units_without_entry
  <-> Internal.symbol u <> ""
      /\ forall e, In e scanned_tables ->
                   Internal.UnitInfo.str e <> Internal.symbol u.
Proof.
  rewrite no_entry_iff. unfold units_without_entry.
  destruct u; simpl; split;
    try (intros _; split; [discriminate | reflexivity]);
    try (intros [Hne Hloop]; solve [congruence | discriminate Hloop]);
    try tauto;
    intros H; repeat (destruct H as [H | H]; [discriminate H | ]);
    destruct H.
Qed.

End Tables.

(** ** The reference parser in front of a symbol *)

Section ReferenceAppend.
Variable sym : string.
Hypothesis Hsym : Reference.ends_number sym = true.

Local Ltac first_char :=
  unfold Reference.ends_number in Hsym;
  destruct sym as [| c0 sym0]; simpl;
  [ try reflexivity
  | apply andb_prop in Hsym; destruct Hsym as [Hsym1 Hinity];
    apply andb_prop in Hsym1; destruct Hsym1 as [Hdigit Hchars];
    apply negb_true_iff in Hdigit; apply negb_true_iff in Hchars;
    simpl in Hchars; repeat (apply orb_false_elim in Hchars;
                             destruct Hchars as [? Hchars]) ].

Lemma skip_char_ends (c : ascii) :
  In c ["."; "e"; "E"; "+"; "-"; "("]%char ->
  Reference.skip_char c sym = None.
Proof.
  intros Hc. first_char.
  simpl in Hc.
  repeat (destruct Hc as [<- | Hc];
          [match goal with H : Ascii.eqb c0 _ = false |- _ =>
             rewrite H; reflexivity end | ]).
  destruct Hc.
Qed.

Lemma skip_char_app (c : ascii) (s : string) :
  In c ["."; "e"; "E"; "+"; "-"; "("]%char ->
  Reference.skip_char c (s ++ sym)
  = option_map (fun r => r ++ sym)%string (Reference.skip_char c s).
Proof.
  intros Hc. destruct s as [| c' s]; simpl.
  - now apply skip_char_ends.
  - destruct (Ascii.eqb c' c); reflexivity.
Qed.

Lemma digits_app (s : string) (i : Z) (n : nat) :
  Reference.digits (s ++ sym) i n
  = let '(i', n', rest) := Reference.digits s i n in
    (i', n', (rest ++ sym)%string).
Proof.
  revert i n. induction s as [| c s IH]; intros i n; simpl.
  - first_char. rewrite Hdigit. reflexivity.
  - destruct (Reference.is_integer c); [apply IH | reflexivity].
Qed.

Lemma exponent_part_app (s : string) :
  Reference.exponent_part (s ++ sym)
  = option_map (fun '(x, rest) => (x, (rest ++ sym)%string))
      (Reference.exponent_part s).
Proof.
  unfold Reference.exponent_part.
  rewrite !skip_char_app by (simpl; tauto).
  destruct (Reference.skip_char "e" s) as [s1 | ]; simpl;
    [ | destruct (Reference.skip_char "E" s) as [s1 | ]; simpl;
        [ | reflexivity] ].
  all: rewrite !skip_char_app by (simpl; tauto).
  all: destruct (Reference.skip_char "-" s1) as [s2 | ]; simpl;
    [ | destruct (Reference.skip_char "+" s1) as [s2 | ]; simpl ].
  all: rewrite digits_app.
  all: match goal with
       | |- context [Reference.digits ?a 0%Z 0] =>
           destruct (Reference.digits a 0%Z 0) as [[x [| k]] rest]
       end; reflexivity.
Qed.

(** A decimal number is read the same way in front of [sym]. *)
Lemma parse_number_string_app (s : string) :
  Reference.parse_number_string (s ++ sym)
  = option_map (fun '(x, ok, rest) => (x, ok, (rest ++ sym)%string))
      (Reference.parse_number_string s).
Proof.
  unfold Reference.parse_number_string.
  rewrite skip_char_app by (simpl; tauto).
  destruct (Reference.skip_char "-" s) as [s1 | ]; simpl;
    rewrite digits_app.
  all: match goal with
       | |- context [Reference.digits ?a 0%Z 0] =>
           destruct (Reference.digits a 0%Z 0) as [[i1 n1] s2]
       end.
  all: rewrite skip_char_app by (simpl; tauto).
  all: destruct (Reference.skip_char "." s2) as [s2' | ]; simpl;
    [ rewrite digits_app;
      destruct (Reference.digits s2' i1 0) as [[i2 n2] s3]
    | ].
  all: match goal with
       | |- context [match ?n with O => _ | S _ => _ end] =>
           destruct n; [reflexivity | ]
       end.
  all: rewrite exponent_part_app.
  all: match goal with
       | |- context [Reference.exponent_part ?a] =>
           destruct (Reference.exponent_part a) as [[x rest] | ]
       end; reflexivity.
Qed.

Lemma strncasecmp_app (s word r : string) :
  Reference.strncasecmp s word = Some r ->
  Reference.strncasecmp (s ++ sym) word = Some (r ++ sym)%string.
Proof.
  revert s. induction word as [| w word IH]; intros s; simpl.
  - intros [= <-]; reflexivity.
  - destruct s as [| c s]; simpl; [discriminate | ].
    destruct (Ascii.eqb (Reference.to_lower c) w); [apply IH | discriminate].
Qed.

Lemma n_char_seq_app (s r : string) :
  Reference.n_char_seq s = Some r ->
  Reference.n_char_seq (s ++ sym) = Some (r ++ sym)%string.
Proof.
  induction s as [| c s IH]; simpl; [discriminate | ].
  destruct (Ascii.eqb c ")"); [intros [= <-]; reflexivity | ].
  destruct (Reference.is_n_char c); [exact IH | discriminate].
Qed.

(** A text that starts like [inf] does not start like [nan]. *)
Lemma strncasecmp_inf_not_nan (s r : string) :
  Reference.strncasecmp s "inf" = Some r ->
  Reference.strncasecmp (s ++ sym) "nan" = None.
Proof.
  destruct s as [| c s]; simpl; [discriminate | ].
  destruct (Ascii.eqb_spec (Reference.to_lower c) "i") as [-> | _];
    [reflexivity | discriminate].
Qed.

(** A whole [nan], [inf] or [infinity] is read the same way in front of
    [sym]. *)
Lemma parse_infnan_app (s : string) (x : spec_float) :
  Reference.parse_infnan s = Some (x, "") ->
  Reference.parse_infnan (s ++ sym) = Some (x, sym).
Proof.
  assert (Hinity : Reference.strncasecmp sym "inity" = None).
  { unfold Reference.ends_number in Hsym. destruct sym; [reflexivity | ].
    apply andb_prop in Hsym. destruct Hsym as [_ H].
    destruct (Reference.strncasecmp _ "inity"); [discriminate H | reflexivity]. }
  unfold Reference.parse_infnan.
  rewrite skip_char_app by (simpl; tauto).
  destruct (Reference.skip_char "-" s) as [s1 | ]; cbn [option_map].
  all: match goal with
       | |- context [Reference.strncasecmp ?a "nan"] =>
           destruct (Reference.strncasecmp a "nan") as [s2 | ] eqn:Hnan
       end.
  all: try (rewrite (strncasecmp_app _ _ _ Hnan);
            rewrite skip_char_app by (simpl; tauto);
            destruct (Reference.skip_char "(" s2) as [s3 | ] eqn:Hparen;
            cbn [option_map];
            [ destruct (Reference.n_char_seq s3) as [s4 | ] eqn:Hseq;
              [ rewrite (n_char_seq_app _ _ Hseq); intros [= <- ->];
                reflexivity
              | intros [= <- ->]; discriminate Hparen ]
            | intros [= <- ->]; reflexivity ]).
  all: match goal with
       | |- context [Reference.strncasecmp ?a "inf"] =>
           destruct (Reference.strncasecmp a "inf") as [s2 | ] eqn:Hinf;
           [ | discriminate ]
       end.
  all: rewrite (strncasecmp_inf_not_nan _ _ Hinf),
         (strncasecmp_app _ _ _ Hinf).
  all: destruct (Reference.strncasecmp s2 "inity") as [s3 | ] eqn:Hity;
    [ rewrite (strncasecmp_app _ _ _ Hity); intros [= <- ->]; reflexivity
    | intros [= <- ->]; cbn [append]; rewrite Hinity; reflexivity ].
Qed.

(** When the reference parser reads the whole of [num] as the number [v],
    it reads [v] in front of [sym] and stops there. *)
Lemma reference_reads_app (num : string) (v : float) :
  Reference.from_chars num
  = ({| ptr := String.length num; ec := errc_none |}, v) ->
  @reads_number Reference.fast_float (num ++ sym) v sym.
Proof.
  intros Hnum.
  exists {| ptr := String.length num; ec := errc_none |}.
  split; [ | split; [reflexivity | apply substr_app] ].
  assert (Hrest : forall rest,
             String.length num - String.length rest = String.length num ->
             num <> "" -> rest = "").
  { intros [| c rest] Hlen Hne; [reflexivity | ].
    destruct num; [congruence | simpl in Hlen; lia]. }
  assert (Hlen : String.length (num ++ sym) - String.length sym
                 = String.length num).
  { rewrite length_app. lia. }
  change (@from_chars Reference.fast_float (num ++ sym))
    with (Reference.from_chars (num ++ sym)).
  assert (Hne : num <> "") by (intros ->; discriminate Hnum).
  revert Hnum. unfold Reference.from_chars.
  rewrite parse_number_string_app.
  destruct (Reference.parse_number_string num) as [[[x ok] rest] | ]; simpl.
  - intros [= Hptr Hok Hv]. rewrite (Hrest rest Hptr Hne). simpl.
    rewrite Hlen, Hv. destruct ok; [reflexivity | discriminate].
  - destruct (Reference.parse_infnan num) as [[x rest] | ] eqn:Hinf;
      [ | discriminate ].
    intros [= Hptr Hv]. rewrite (Hrest rest Hptr Hne) in Hinf.
    rewrite (parse_infnan_app _ _ Hinf), Hlen, Hv. reflexivity.
Qed.

End ReferenceAppend.

(** Every symbol of the tables ends a number text. *)
Lemma table_symbols_end_number {UC : UnitConstants}
    (e : Internal.UnitInfo.t) :
  In e scanned_tables -> Reference.ends_number (Internal.UnitInfo.str e) = true.
Proof.
  unfold scanned_tables. simpl. intros Hin.
  repeat (destruct Hin as [<- | Hin]; [reflexivity | ]).
  destruct Hin.
Qed.

(** A text made of a number and the symbol of an entry is parsed to the
    number and the data of the entry. *)
Lemma parseQuantity_symbol_of_entry {UC : UnitConstants} {FF : FastFloat}
    (e : Internal.UnitInfo.t) (num : string) (value : float)
    (ptrUnit : option Unit.t) :
  In e scanned_tables ->
  reads_number (num ++ Internal.UnitInfo.str e) value
    (Internal.UnitInfo.str e) ->
  UnitSystem.parseQuantity (num ++ Internal.UnitInfo.str e) ptrUnit
  = Returns (TranslateResult.make value (Some (Internal.UnitInfo.str e))
               (Internal.UnitInfo.factor e),
             match ptrUnit with
             | Some _ => Some (Internal.UnitInfo.unit e)
             | None => None
             end).
Proof.
  intros Hin Hrd.
  rewrite (parseQuantity_number _ ptrUnit value _ Hrd).
  pose proof (table_symbols_not_empty e Hin) as Hne.
  apply empty_false_iff in Hne. rewrite Hne.
  rewrite (first_entry_of_symbol value _ e Hin).
  unfold matched. rewrite fnAssignUnit_again.
  destruct ptrUnit; reflexivity.
Qed.

(** C6: round trip through the tables.  Take any entry of either table and
    any text made of a number text followed by the symbol of the entry.
    Whenever [from_chars] reads the number back as [value] and stops in front
    of the symbol, [parseQuantity] returns [value], the symbol and the factor
    of the entry, and stores the unit of the entry.  The reference parser
    does so for every number text it reads as a whole, whatever the entry. *)
Theorem parseQuantity_roundtrip :
  (forall (UC : UnitConstants) (FF : FastFloat) (e : Internal.UnitInfo.t)
          (num : string) (value : float) (ptrUnit : option Unit.t),
      In e (Internal.arrayUnitInfo_SI ++ Internal.arrayUnitInfo_ImperialUK) ->
      reads_number (num ++ Internal.UnitInfo.str e) value
        (Internal.UnitInfo.str e) ->
      UnitSystem.parseQuantity (num ++ Internal.UnitInfo.str e) ptrUnit
      = Returns (TranslateResult.make value (Some (Internal.UnitInfo.str e))
                   (Internal.UnitInfo.factor e),
                 match ptrUnit with
                 | Some _ => Some (Internal.UnitInfo.unit e)
                 | None => None
                 end))
  /\ (forall (UC : UnitConstants) (e : Internal.UnitInfo.t) (num : string)
             (value : float) (ptrUnit : option Unit.t),
         In e (Internal.arrayUnitInfo_SI ++ Internal.arrayUnitInfo_ImperialUK) ->
         Reference.from_chars num
         = ({| ptr := String.length num; ec := errc_none |}, value) ->
         @UnitSystem.parseQuantity UC Reference.fast_float
           (num ++ Internal.UnitInfo.str e) ptrUnit
         = Returns (TranslateResult.make value
                      (Some (Internal.UnitInfo.str e))
                      (Internal.UnitInfo.factor e),
                    match ptrUnit with
                    | Some _ => Some (Internal.UnitInfo.unit e)
                    | None => None
                    end)).
Proof.
  split.
  - intros UC FF e num value ptrUnit Hin Hrd.
    now apply parseQuantity_symbol_of_entry.
  - intros UC e num value ptrUnit Hin Hnum.
    apply parseQuantity_symbol_of_entry; [exact Hin | ].
    apply reference_reads_app; [ | exact Hnum].
    now apply table_symbols_end_number.
Qed.

(** The text of 0.75 in front of the square inch, the seventh entry of the
    ImperialUK table. *)
Lemma parseQuantity_roundtrip_witness :
  parseQuantity_ref "0.75in²" (Some Unit.None)
  = Returns (TranslateResult.make 0.75%float (Some "in²") 654.16%float,
             Some Unit.Area).
Proof.
  refine (proj2 parseQuantity_roundtrip unit_h
            (Internal.UnitInfo.make Unit.Area "in²" 654.16%float)
            "0.75" 0.75%float (Some Unit.None) _ _).
  - simpl. do 32 right. left. reflexivity.
  - vm_compute. reflexivity.
Defined.

(** C10: behind a number, a non-empty suffix is accepted only when it is the
    symbol of an entry of one of the two tables.  The symbols of
    [Internal::symbol] that stand in neither table ([kg], [s], [A], [K],
    [mol], [cd], [m/s], [m/s²], [kg/m.s²]) are refused: the result is the
    value-initialised one and the cell behind a non-null [ptrUnit] holds
    [Unit::None], as on ["5s"] and ["2kg"].  So what [translate] returns on
    its [default] branch for such a unit is not read back. *)
Theorem parseQuantity_rejects_base_symbols :
  (forall (UC : UnitConstants) (FF : FastFloat) (text : string)
          (ptrUnit : option Unit.t) (v : float) (strUnit : string) r cell,
      reads_number text v strUnit -> strUnit <> "" ->
      UnitSystem.parseQuantity text ptrUnit = Returns (r, cell) ->
      r <> TranslateResult.empty ->
      exists e,
        In e (Internal.arrayUnitInfo_SI ++ Internal.arrayUnitInfo_ImperialUK)
        /\ Internal.UnitInfo.str e = strUnit)
  /\ map Internal.symbol units_without_entry
     = ["kg"; "s"; "A"; "K"; "mol"; "cd"; "m/s"; "m/s²"; "kg/m.s²"]
  /\ (forall (UC : UnitConstants) (FF : FastFloat) (u : Unit.t)
             (text : string) (v : float),
         In u units_without_entry ->
         reads_number text v (Internal.symbol u) ->
         (forall u0,
             UnitSystem.parseQuantity text (Some u0)
             = Returns (TranslateResult.empty, Some Unit.None))
         /\ UnitSystem.parseQuantity text None
            = Returns (TranslateResult.empty, None))
  /\ parseQuantity_ref "5s" (Some Unit.Time)
     = Returns (TranslateResult.empty, Some Unit.None)
  /\ parseQuantity_ref "2kg" (Some Unit.Mass)
     = Returns (TranslateResult.empty, Some Unit.None)
  /\ (forall (UC : UnitConstants) (FF : FastFloat) (schema : Schema.t)
             (u : Unit.t) (v v' : float) (num : string)
             (ptrUnit : option Unit.t),
         In u units_without_entry -> ~ In u (special_cases schema) ->
         exists sym,
           TranslateResult.strUnit (UnitSystem.translate schema v u)
           = Some sym
           /\ (reads_number (num ++ sym) v' sym ->
               UnitSystem.parseQuantity (num ++ sym) ptrUnit
               = Returns (TranslateResult.empty,
                          UnitSystem.fnAssignUnit ptrUnit Unit.None))).
Proof.
  assert (Hrej : forall (UC : UnitConstants) (FF : FastFloat) (u : Unit.t)
                   (text : string) (v : float) (ptrUnit : option Unit.t),
             In u units_without_entry ->
             reads_number text v (Internal.symbol u) ->
             UnitSystem.parseQuantity text ptrUnit
             = Returns (TranslateResult.empty,
                        UnitSystem.fnAssignUnit ptrUnit Unit.None)).
  { intros UC FF u text v ptrUnit Hu Hrd.
    apply units_without_entry_iff in Hu. destruct Hu as [Hne Hall].
    rewrite (parseQuantity_number text ptrUnit v _ Hrd).
    apply empty_false_iff in Hne. rewrite Hne.
    apply (for_unitInfo_None v (Internal.symbol u)
             (UnitSystem.fnAssignUnit ptrUnit Unit.None)) in Hall.
    rewrite Hall. reflexivity. }
  split; [ | split; [reflexivity | split; [ | split; [ | split]]]].
  - intros UC FF text ptrUnit v strUnit r cell Hrd Hne Hpq Hr.
    rewrite (parseQuantity_number text ptrUnit v strUnit Hrd) in Hpq.
    apply empty_false_iff in Hne. rewrite Hne in Hpq.
    destruct (UnitSystem.for_unitInfo v strUnit _ scanned_tables)
      as [r' | ] eqn:Hloop.
    + destruct (for_unitInfo_Some _ _ _ _ _ Hloop)
        as (pre & e & post & Htab & _ & He & _).
      exists e. split; [ | exact He].
      fold scanned_tables. rewrite Htab. apply in_or_app. right. now left.
    + injection Hpq as <- _. now contradiction Hr.
  - intros UC FF u text v Hu Hrd. split; [intros u0 | ].
    + exact (Hrej UC FF u text v (Some u0) Hu Hrd).
    + exact (Hrej UC FF u text v None Hu Hrd).
  - vm_compute. reflexivity.
  - vm_compute. reflexivity.
  - intros UC FF schema u v v' num ptrUnit Hu Hdef.
    exists (Internal.symbol u).
    rewrite (translate_default schema u v Hdef).
    split; [reflexivity | ].
    intros Hrd. exact (Hrej UC FF u _ v' ptrUnit Hu Hrd).
Qed.

(** The kelvin: [translate] returns its symbol under SI, and the reference
    parser reads 300 in front of it. *)
Lemma parseQuantity_rejects_base_symbols_witness :
  TranslateResult.strUnit
    (UnitSystem.translate Schema.SI 300%float Unit.ThermodynamicTemperature)
  = Some "K"
  /\ parseQuantity_ref "300K" (Some Unit.ThermodynamicTemperature)
     = Returns (TranslateResult.empty, Some Unit.None).
Proof.
  split; [reflexivity | ].
  refine (proj1 (proj1 (proj2 (proj2 parseQuantity_rejects_base_symbols))
                   unit_h Reference.fast_float Unit.ThermodynamicTemperature
                   "300K" 300%float _ _)
            Unit.ThermodynamicTemperature).
  - simpl. tauto.
  - exists {| ptr := 3; ec := errc_none |}. vm_compute. auto.
Defined.


(** * Further properties of the unit system *)

(** ** The accessors and translate *)

(** X1: the accessors [radians], [millimeters], [cubicMillimeters],
    [millimetersPerSecond] and [seconds] return what [translate] returns
    under SI for their unit; [degrees] and [meters] return a symbol that
    [translate] returns under no schema for their unit. *)
Theorem accessors_and_translate :
  (forall angle : QuantityAngle,
      UnitSystem.radians angle
      = UnitSystem.translate Schema.SI (Quantity.value angle) Unit.Angle)
  /\ (forall length : QuantityLength,
         UnitSystem.millimeters length
         = UnitSystem.translate Schema.SI (Quantity.value length) Unit.Length)
  /\ (forall volume : QuantityVolume,
         UnitSystem.cubicMillimeters volume
         = UnitSystem.translate Schema.SI (Quantity.value volume) Unit.Volume)
  /\ (forall speed : QuantityVelocity,
         UnitSystem.millimetersPerSecond speed
         = UnitSystem.translate Schema.SI (Quantity.value speed)
             Unit.Velocity)
  /\ (forall duration : QuantityTime,
         UnitSystem.seconds duration
         = UnitSystem.translate Schema.SI (Quantity.value duration) Unit.Time)
  /\ (forall (UC : UnitConstants) (schema : Schema.t) (angle : QuantityAngle)
             (v : float),
         TranslateResult.strUnit (UnitSystem.degrees angle)
         <> TranslateResult.strUnit (UnitSystem.translate schema v Unit.Angle))
  /\ (forall (UC : UnitConstants) (schema : Schema.t)
             (length : QuantityLength) (v : float),
         TranslateResult.strUnit (UnitSystem.meters length)
         <> TranslateResult.strUnit
              (UnitSystem.translate schema v Unit.Length)).
Proof.
  repeat split; try reflexivity.
  - intros UC [] angle v; discriminate.
  - intros UC [] length v; discriminate.
Qed.

(** X4: outside Length, Area, Volume, Velocity and Pressure the two schemas
    return the same result.  On Pressure they return the same value and the
    same factor 1 under two different symbols, [kPa] and [kg/m.s²]. *)
Theorem schemas_agree :
  (forall (v : float) (u : Unit.t),
      ~ In u schema_dependent ->
      UnitSystem.translate Schema.SI v u
      = UnitSystem.translate Schema.ImperialUK v u)
  /\ (forall v : float,
         UnitSystem.translate Schema.SI v Unit.Pressure
         = TranslateResult.make v (Some "kPa") 1%float
         /\ UnitSystem.translate Schema.ImperialUK v Unit.Pressure
            = TranslateResult.make v (Some "kg/m.s²") 1%float).
Proof.
  split; [ | split; reflexivity].
  intros v u Hu. destruct u; try reflexivity;
    exfalso; apply Hu; unfold schema_dependent; simpl; tauto.
Qed.

Lemma schemas_agree_witness :
  UnitSystem.translate Schema.SI 7.85%float Unit.Density
  = UnitSystem.translate Schema.ImperialUK 7.85%float Unit.Density.
Proof.
  apply (proj1 schemas_agree 7.85%float Unit.Density).
  unfold schema_dependent. simpl. intuition discriminate.
Defined.

(** X12: [translate] always returns a symbol, empty for [Unit::None] only,
    and a factor above zero. *)
Theorem translate_symbol_and_factor (schema : Schema.t) (v : float)
    (u : Unit.t) :
  PrimFloat.ltb 0%float
    (TranslateResult.factor (UnitSystem.translate schema v u)) = true
  /\ exists sym,
       TranslateResult.strUnit (UnitSystem.translate schema v u) = Some sym
       /\ (sym = "" <-> u = Unit.None).
Proof.
  destruct schema, u; (split; [vm_compute; reflexivity | ]);
    eexists; (split; [reflexivity | ]); split; try discriminate; reflexivity.
Qed.

(** X13: zero of either sign, the infinities and the not-a-number value go
    through [translate] unchanged, whatever the schema and the unit. *)
Theorem translate_special_values (schema : Schema.t) (u : Unit.t) :
  Forall
    (fun v => TranslateResult.value (UnitSystem.translate schema v u) = v)
    [0%float; (-0)%float; infinity; neg_infinity; nan].
Proof.
  destruct schema, u; repeat constructor; vm_compute; reflexivity.
Qed.

(** ** The symbols *)

(** X5: [Internal::symbol] gives different units different symbols. *)
Theorem symbol_injective (u u' : Unit.t) :
  Internal.symbol u = Internal.symbol u' -> u = u'.
Proof. destruct u, u'; intros H; first [reflexivity | discriminate H]. Qed.

Lemma symbol_injective_witness :
  Internal.symbol Unit.Area = "m²" /\ Unit.Area = Unit.Area.
Proof.
  split; [reflexivity | ].
  apply (symbol_injective Unit.Area Unit.Area). reflexivity.
Defined.

(** ** The tables *)

Section TableFacts.
Context {UC : UnitConstants}.

Local Ltac each_entry Hin :=
  unfold scanned_tables, Internal.arrayUnitInfo_SI,
    Internal.arrayUnitInfo_ImperialUK in Hin;
  simpl in Hin;
  repeat (destruct Hin as [<- | Hin]; [ | ]); [ .. | destruct Hin].

(** No entry is tagged [Unit::None]. *)
Lemma table_units_not_None (e : Internal.UnitInfo.t) :
  In e scanned_tables -> Internal.UnitInfo.unit e <> Unit.None.
Proof. intros Hin. each_entry Hin; discriminate. Qed.

(** The entries of one symbol are copies of one another. *)
Lemma table_entries_of_symbol (e e' : Internal.UnitInfo.t) :
  In e scanned_tables -> In e' scanned_tables ->
  Internal.UnitInfo.str e = Internal.UnitInfo.str e' -> e = e'.
Proof.
  intros Hin Hin' Hstr.
  pose proof (first_entry_of_symbol 0%float (Some Unit.None) e Hin) as H.
  pose proof (first_entry_of_symbol 0%float (Some Unit.None) e' Hin') as H'.
  rewrite Hstr, H' in H. unfold matched in H. simpl in H.
  destruct e as [u s f], e' as [u' s' f']. simpl in *.
  injection H as -> -> ->. reflexivity.
Qed.

Lemma table_factors_positive (e : Internal.UnitInfo.t) :
  PrimFloat.ltb 0%float (Quantity.value Quantity_Degree) = true ->
  In e scanned_tables ->
  PrimFloat.ltb 0%float (Internal.UnitInfo.factor e) = true.
Proof.
  intros Hdeg Hin. each_entry Hin; first [exact Hdeg | vm_compute; reflexivity].
Qed.

End TableFacts.

(** X7: the two tables together map a symbol to one unit and one factor:
    entries with the same symbol ([mm], [m] and [kPa] come twice) are equal,
    and no symbol of the SI table is in the ImperialUK table.  So which of
    the entries of a symbol is met first makes no difference. *)
Theorem tables_map_symbols (UC : UnitConstants) :
  (forall e e',
      In e (Internal.arrayUnitInfo_SI ++ Internal.arrayUnitInfo_ImperialUK) ->
      In e' (Internal.arrayUnitInfo_SI ++ Internal.arrayUnitInfo_ImperialUK) ->
      Internal.UnitInfo.str e = Internal.UnitInfo.str e' ->
      Internal.UnitInfo.unit e = Internal.UnitInfo.unit e'
      /\ Internal.UnitInfo.factor e = Internal.UnitInfo.factor e')
  /\ (forall e e',
         In e Internal.arrayUnitInfo_SI ->
         In e' Internal.arrayUnitInfo_ImperialUK ->
         Internal.UnitInfo.str e <> Internal.UnitInfo.str e').
Proof.
  split.
  - intros e e' Hin Hin' Hstr.
    rewrite (table_entries_of_symbol e e' Hin Hin' Hstr). auto.
  - intros e e' Hin Hin' Hstr.
    assert (He : e = e').
    { apply table_entries_of_symbol; [ | | exact Hstr];
        unfold scanned_tables; apply in_or_app; [now left | now right]. }
    subst e'. clear Hstr. revert Hin'.
    unfold Internal.arrayUnitInfo_SI in Hin. simpl in Hin.
    repeat (destruct Hin as [<- | Hin];
            [ simpl; intuition discriminate | ]).
    destruct Hin.
Qed.

Lemma tables_map_symbols_witness :
  Internal.UnitInfo.unit (Internal.UnitInfo.make Unit.Length "mm" 1%float)
  = Internal.UnitInfo.unit (Internal.UnitInfo.make Unit.Length "mm" 1%float)
  /\ Internal.UnitInfo.factor (Internal.UnitInfo.make Unit.Length "mm" 1%float)
     = Internal.UnitInfo.factor
         (Internal.UnitInfo.make Unit.Length "mm" 1%float).
Proof.
  apply (proj1 (tables_map_symbols unit_h)
           (nth 0 (@scanned_tables unit_h)
              (Internal.UnitInfo.make Unit.None "" 0%float))
           (nth 4 (@scanned_tables unit_h)
              (Internal.UnitInfo.make Unit.None "" 0%float))).
  - simpl. tauto.
  - simpl. tauto.
  - reflexivity.
Defined.

(** X6: when a symbol of [Internal::symbol] stands in a table, the entry is
    tagged with the unit of that symbol. *)
Theorem base_symbol_entries (UC : UnitConstants) (u : Unit.t)
    (e : Internal.UnitInfo.t) :
  In e (Internal.arrayUnitInfo_SI ++ Internal.arrayUnitInfo_ImperialUK) ->
  Internal.UnitInfo.str e = Internal.symbol u ->
  Internal.UnitInfo.unit e = u.
Proof.
  intros Hin Hstr. unfold Internal.arrayUnitInfo_SI,
    Internal.arrayUnitInfo_ImperialUK in Hin. simpl in Hin.
  repeat (destruct Hin as [<- | Hin];
          [ destruct u; first [reflexivity | discriminate Hstr] | ]).
  destruct Hin.
Qed.

Lemma base_symbol_entries_witness :
  Internal.UnitInfo.unit (Internal.UnitInfo.make Unit.Volume "m³" 1e9%float)
  = Unit.Volume.
Proof.
  apply (base_symbol_entries unit_h Unit.Volume
           (Internal.UnitInfo.make Unit.Volume "m³" 1e9%float)).
  - simpl. do 14 right. left. reflexivity.
  - reflexivity.
Defined.

(** ** What parseQuantity returns *)

Section ParseFacts.
Context {UC : UnitConstants} {FF : FastFloat}.

(** The symbol of an entry is parsed back to the data of the entry. *)
Lemma entry_parses_back (e : Internal.UnitInfo.t) :
  In e scanned_tables ->
  parses_back (Internal.UnitInfo.str e) (Internal.UnitInfo.factor e)
    (Internal.UnitInfo.unit e).
Proof.
  intros Hin num v ptrUnit Hrd.
  now apply parseQuantity_symbol_of_entry.
Qed.

(** A symbol of [Internal::symbol] that stands in no table is refused. *)
Lemma base_symbol_refused (u : Unit.t) :
  In u units_without_entry -> refused (Internal.symbol u).
Proof.
  intros Hu num v ptrUnit Hrd.
  apply units_without_entry_iff in Hu. destruct Hu as [Hne Hall].
  rewrite (parseQuantity_number _ ptrUnit v _ Hrd).
  apply empty_false_iff in Hne. rewrite Hne.
  apply (for_unitInfo_None v (Internal.symbol u)
           (UnitSystem.fnAssignUnit ptrUnit Unit.None)) in Hall.
  rewrite Hall. destruct ptrUnit; reflexivity.
Qed.

(** The three shapes of a result: the value-initialised one, a number
    without symbol, a number with the data of a table entry. *)
Lemma parseQuantity_shapes (text : string) (ptrUnit : option Unit.t) :
  UnitSystem.parseQuantity text ptrUnit
  = Returns (TranslateResult.empty,
             UnitSystem.fnAssignUnit ptrUnit Unit.None)
  \/ (exists v,
         reads_number text v ""
         /\ UnitSystem.parseQuantity text ptrUnit
            = Returns (TranslateResult.make v None 1%float,
                       UnitSystem.fnAssignUnit ptrUnit Unit.None))
  \/ (exists v e,
         In e scanned_tables
         /\ reads_number text v (Internal.UnitInfo.str e)
         /\ UnitSystem.parseQuantity text ptrUnit
            = Returns (TranslateResult.make v (Some (Internal.UnitInfo.str e))
                         (Internal.UnitInfo.factor e),
                       UnitSystem.fnAssignUnit ptrUnit
                         (Internal.UnitInfo.unit e))).
Proof.
  destruct (from_chars_cases text) as [Hno | (v & strUnit & Hrd)].
  - left. now apply parseQuantity_no_number.
  - rewrite (parseQuantity_number text ptrUnit v strUnit Hrd).
    destruct (empty strUnit) eqn:Hemp.
    + right. left. exists v. destruct strUnit; [auto | discriminate].
    + destruct (UnitSystem.for_unitInfo v strUnit _ scanned_tables)
        as [r | ] eqn:Hloop; [ | now left].
      destruct (for_unitInfo_Some _ _ _ _ _ Hloop)
        as (pre & e & post & Htab & _ & He & ->).
      right. right. exists v, e. subst strUnit.
      split; [rewrite Htab; apply in_or_app; right; now left | ].
      split; [exact Hrd | ].
      unfold matched. now rewrite fnAssignUnit_again.
Qed.

End ParseFacts.

(** X10: [parseQuantity] never lets the exception of
    [std::string_view::substr] escape: the offset it passes is the pointer
    returned by [from_chars], which lies inside the text. *)
Theorem parseQuantity_never_throws (UC : UnitConstants) (FF : FastFloat)
    (text : string) (ptrUnit : option Unit.t) :
  UnitSystem.parseQuantity text ptrUnit <> Throws_out_of_range
  /\ (forall res v,
         from_chars text = (res, v) ->
         exists strUnit, substr text (ptr res) = Returns strUnit).
Proof.
  split.
  - destruct (parseQuantity_shapes text ptrUnit)
      as [H | [(v & _ & H) | (v & e & _ & _ & H)]]; rewrite H; discriminate.
  - intros res v Hfc. apply substr_in_range.
    pose proof (from_chars_ptr text) as Hptr. rewrite Hfc in Hptr.
    exact Hptr.
Qed.

(** X11: the out-parameter is written, never read: the result and the unit
    stored do not depend on what the cell held before, the result is the
    same with a null pointer, and nothing is stored through a null
    pointer. *)
Theorem parseQuantity_out_parameter (UC : UnitConstants) (FF : FastFloat)
    (text : string) :
  exists r unit,
    (forall u0, UnitSystem.parseQuantity text (Some u0)
                = Returns (r, Some unit))
    /\ UnitSystem.parseQuantity text None = Returns (r, None).
Proof.
  destruct (from_chars_cases text) as [Hno | (v & strUnit & Hrd)].
  - exists TranslateResult.empty, Unit.None. split; [intros u0 | ];
      now rewrite parseQuantity_no_number.
  - destruct (empty strUnit) eqn:Hemp.
    + exists (TranslateResult.make v None 1%float), Unit.None.
      split; [intros u0 | ];
        rewrite (parseQuantity_number text _ v strUnit Hrd), Hemp;
        reflexivity.
    + destruct (UnitSystem.for_unitInfo v strUnit None scanned_tables)
        as [r | ] eqn:Hloop.
      * destruct (for_unitInfo_Some _ _ _ _ _ Hloop)
          as (pre & e & post & Htab & Hpre & He & ->).
        exists (TranslateResult.make v (Some (Internal.UnitInfo.str e))
                  (Internal.UnitInfo.factor e)), (Internal.UnitInfo.unit e).
        split; [intros u0 | ];
          rewrite (parseQuantity_number text _ v strUnit Hrd), Hemp, Htab,
            (for_unitInfo_first v strUnit _ pre post e Hpre He);
          reflexivity.
      * exists TranslateResult.empty, Unit.None.
        pose proof (proj1 (for_unitInfo_None _ _ _ _) Hloop) as Hall.
        split; [intros u0 | ];
          rewrite (parseQuantity_number text _ v strUnit Hrd), Hemp;
          match goal with
          | |- context [UnitSystem.for_unitInfo v strUnit ?c scanned_tables] =>
              rewrite (proj2 (for_unitInfo_None v strUnit c scanned_tables)
                         Hall)
          end; reflexivity.
Qed.

(** X8: with a non-null [ptrUnit], the result carries a symbol exactly when
    the unit stored is not [Unit::None]; a symbol that is returned is the
    symbol of a table entry, with the factor and the unit of that entry;
    without symbol the factor is 1, or 0 in the value-initialised result. *)
Theorem parseQuantity_symbol_iff_unit (UC : UnitConstants) (FF : FastFloat)
    (text : string) (u0 : Unit.t) :
  exists r unit,
    UnitSystem.parseQuantity text (Some u0) = Returns (r, Some unit)
    /\ (TranslateResult.strUnit r = None <-> unit = Unit.None)
    /\ (forall sym,
           TranslateResult.strUnit r = Some sym ->
           In (Internal.UnitInfo.make unit sym (TranslateResult.factor r))
             (Internal.arrayUnitInfo_SI ++ Internal.arrayUnitInfo_ImperialUK))
    /\ (TranslateResult.strUnit r = None ->
        r = TranslateResult.empty \/ TranslateResult.factor r = 1%float).
Proof.
  destruct (parseQuantity_shapes text (Some u0))
    as [H | [(v & _ & H) | (v & e & Hin & _ & H)]];
    rewrite H; simpl; eexists _, _; (split; [reflexivity | ]); simpl.
  - repeat split; auto; discriminate.
  - repeat split; auto; discriminate.
  - split; [ | split; [ | discriminate] ].
    + split; [discriminate | ].
      intros Hu. now apply table_units_not_None in Hin.
    + intros sym [= <-]. destruct e. exact Hin.
Qed.

(** X9: when the degree constant is above zero, every factor of the tables
    is, and so is the factor of every result of [parseQuantity] but the
    value-initialised one. *)
Theorem parseQuantity_factor_positive (UC : UnitConstants) (FF : FastFloat)
    (text : string) (ptrUnit : option Unit.t) r cell :
  PrimFloat.ltb 0%float (Quantity.value Quantity_Degree) = true ->
  UnitSystem.parseQuantity text ptrUnit = Returns (r, cell) ->
  r <> TranslateResult.empty ->
  PrimFloat.ltb 0%float (TranslateResult.factor r) = true.
Proof.
  intros Hdeg Hpq Hr.
  destruct (parseQuantity_shapes text ptrUnit)
    as [H | [(v & _ & H) | (v & e & Hin & _ & H)]];
    rewrite H in Hpq; injection Hpq as <- _.
  - now contradiction Hr.
  - reflexivity.
  - simpl. now apply table_factors_positive.
Qed.

Lemma parseQuantity_factor_positive_witness :
  parseQuantity_ref "3.5µm" (Some Unit.None)
  = Returns (TranslateResult.make 3.5%float (Some "µm") 0.001%float,
             Some Unit.Length)
  /\ PrimFloat.ltb 0%float 0.001%float = true.
Proof.
  split; [vm_compute; reflexivity | ].
  refine (parseQuantity_factor_positive unit_h Reference.fast_float
            "3.5µm" (Some Unit.None)
            (TranslateResult.make 3.5%float (Some "µm") 0.001%float)
            (Some Unit.Length) _ _ _).
  - vm_compute. reflexivity.
  - vm_compute. reflexivity.
  - discriminate.
Defined.

Lemma parseQuantity_symbol_iff_unit_witness :
  exists r unit,
    parseQuantity_ref "2.5kPa" (Some Unit.Length) = Returns (r, Some unit)
    /\ (TranslateResult.strUnit r = None <-> unit = Unit.None)
    /\ (forall sym,
           TranslateResult.strUnit r = Some sym ->
           In (Internal.UnitInfo.make unit sym (TranslateResult.factor r))
             (@Internal.arrayUnitInfo_SI unit_h
                ++ Internal.arrayUnitInfo_ImperialUK))
    /\ (TranslateResult.strUnit r = None ->
        r = TranslateResult.empty \/ TranslateResult.factor r = 1%float).
Proof.
  exact (parseQuantity_symbol_iff_unit unit_h Reference.fast_float
           "2.5kPa" Unit.Length).
Defined.

Lemma parseQuantity_never_throws_witness :
  parseQuantity_ref "12.5furlong" None <> Throws_out_of_range
  /\ exists strUnit, substr "12.5furlong" 4 = Returns strUnit.
Proof.
  split.
  - apply (parseQuantity_never_throws unit_h Reference.fast_float).
  - apply (proj2 (parseQuantity_never_throws unit_h Reference.fast_float
                    "12.5furlong" None)
             {| ptr := 4; ec := errc_none |} 12.5%float).
    vm_compute. reflexivity.
Defined.

(** X17: the number is returned as it was read: the factor of the symbol
    is handed back beside it, not applied to it.  Only the
    value-initialised result drops the number. *)
Theorem parseQuantity_value_as_read (UC : UnitConstants) (FF : FastFloat)
    (text : string) (ptrUnit : option Unit.t) (v : float) (strUnit : string)
    r cell :
  reads_number text v strUnit ->
  UnitSystem.parseQuantity text ptrUnit = Returns (r, cell) ->
  r <> TranslateResult.empty ->
  TranslateResult.value r = v.
Proof.
  intros Hrd Hpq Hr.
  rewrite (parseQuantity_number text ptrUnit v strUnit Hrd) in Hpq.
  destruct (empty strUnit).
  - injection Hpq as <- _. reflexivity.
  - destruct (UnitSystem.for_unitInfo v strUnit _ scanned_tables)
      as [r' | ] eqn:Hloop.
    + destruct (for_unitInfo_Some _ _ _ _ _ Hloop)
        as (pre & e & post & _ & _ & _ & ->).
      injection Hpq as <- _. reflexivity.
    + injection Hpq as <- _. now contradiction Hr.
Qed.

Lemma parseQuantity_value_as_read_witness :
  parseQuantity_ref "2km" (Some Unit.None)
  = Returns (TranslateResult.make 2%float (Some "km") 1e6%float,
             Some Unit.Length)
  /\ TranslateResult.value
       (TranslateResult.make 2%float (Some "km") 1e6%float) = 2%float.
Proof.
  split; [vm_compute; reflexivity | ].
  refine (parseQuantity_value_as_read unit_h Reference.fast_float "2km"
            (Some Unit.None) 2%float "km" _ (Some Unit.Length) _ _ _).
  - exists {| ptr := 1; ec := errc_none |}. vm_compute. auto.
  - vm_compute. reflexivity.
  - discriminate.
Defined.

(** ** Reading back what translate and the accessors display *)

(** X3: what [translate] displays for a unit it has a case for is read back
    by [parseQuantity]: behind any number text, the symbol returned by
    [translate] is parsed to the factor [translate] returned and to the
    unit.  The same holds for Angle under both schemas and for Density under
    ImperialUK, whose symbols come from [Internal::symbol]. *)
Theorem translate_parsed_back (UC : UnitConstants) (FF : FastFloat)
    (schema : Schema.t) (v : float) (u : Unit.t) :
  In u (special_cases schema) \/ In u [Unit.Angle; Unit.Density] ->
  parsed_back_as u (UnitSystem.translate schema v u).
Proof.
  intros Hu.
  assert (He : exists e,
             In e scanned_tables
             /\ TranslateResult.strUnit (UnitSystem.translate schema v u)
                = Some (Internal.UnitInfo.str e)
             /\ TranslateResult.factor (UnitSystem.translate schema v u)
                = Internal.UnitInfo.factor e
             /\ u = Internal.UnitInfo.unit e).
  { destruct schema, u; simpl in Hu;
      try (exfalso; intuition discriminate);
      match goal with
      | |- context [UnitSystem.translate ?s v ?x] =>
          exists (Internal.UnitInfo.make x
                    match TranslateResult.strUnit (UnitSystem.translate s v x)
                    with Some sym => sym | None => "" end
                    (TranslateResult.factor (UnitSystem.translate s v x)))
      end;
      (split; [ | repeat split]);
      unfold scanned_tables; simpl;
      repeat first [left; reflexivity | right]. }
  destruct He as (e & Hin & Hsym & Hf & ->).
  exists (Internal.UnitInfo.str e). split; [exact Hsym | ].
  rewrite Hf. now apply entry_parses_back.
Qed.

(** The square inch: [translate] hands back the factor 654.16, and so does
    [parseQuantity]. *)
Lemma translate_parsed_back_witness :
  TranslateResult.strUnit
    (UnitSystem.translate Schema.ImperialUK 1290.32%float Unit.Area)
  = Some "in²"
  /\ parseQuantity_ref "2in²" (Some Unit.None)
     = Returns (TranslateResult.make 2%float (Some "in²") 654.16%float,
                Some Unit.Area).
Proof.
  split; [reflexivity | ].
  destruct (translate_parsed_back unit_h Reference.fast_float
              Schema.ImperialUK 1290.32%float Unit.Area)
    as (sym & Hsym & Hback).
  - left. simpl. tauto.
  - injection Hsym as <-.
    apply (Hback "2" 2%float (Some Unit.None)).
    exists {| ptr := 1; ec := errc_none |}. vm_compute. auto.
Defined.

(** X2: what the accessors display is read back by [parseQuantity], with
    the factor they returned and their unit, for [radians], [degrees],
    [millimeters], [cubicMillimeters] and [millimetersPerSecond].  The
    symbol of [meters] is read back as a length with the factor 1000 of the
    table, which is the factor of [meters] when the meter constant is 1000.
    The symbol of [seconds] is refused. *)
Theorem accessors_parsed_back (UC : UnitConstants) (FF : FastFloat) :
  (forall angle, parsed_back_as Unit.Angle (UnitSystem.radians angle))
  /\ (forall angle, parsed_back_as Unit.Angle (UnitSystem.degrees angle))
  /\ (forall length,
         parsed_back_as Unit.Length (UnitSystem.millimeters length))
  /\ (forall volume,
         parsed_back_as Unit.Volume (UnitSystem.cubicMillimeters volume))
  /\ (forall speed,
         parsed_back_as Unit.Velocity (UnitSystem.millimetersPerSecond speed))
  /\ (forall length,
         TranslateResult.strUnit (UnitSystem.meters length) = Some "m"
         /\ parses_back "m" 1000%float Unit.Length
         /\ (Quantity.value Quantity_Meter = 1000%float ->
             parsed_back_as Unit.Length (UnitSystem.meters length)))
  /\ (forall duration,
         TranslateResult.strUnit (UnitSystem.seconds duration) = Some "s"
         /\ refused "s").
Proof.
  assert (Hentry : forall u sym f,
             In (Internal.UnitInfo.make u sym f) scanned_tables ->
             parses_back sym f u).
  { intros u sym f Hin.
    exact (entry_parses_back (Internal.UnitInfo.make u sym f) Hin). }
  assert (Hm : parses_back "m" 1000%float Unit.Length).
  { apply Hentry. unfold scanned_tables. simpl. tauto. }
  repeat split.
  1-5: intros q; eexists; (split; [reflexivity | ]); apply Hentry;
    unfold scanned_tables; simpl; repeat first [left; reflexivity | right].
  - exact Hm.
  - intros Hmeter. exists "m". split; [reflexivity | ].
    simpl. rewrite Hmeter. exact Hm.
  - exact (base_symbol_refused Unit.Time ltac:(simpl; tauto)).
Qed.

Lemma accessors_parsed_back_witness :
  UnitSystem.meters (UC := unit_h) (Quantity.make 2500%float)
  = TranslateResult.make 2.5%float (Some "m") 1000%float
  /\ parseQuantity_ref "2.5m" (Some Unit.None)
     = Returns (TranslateResult.make 2.5%float (Some "m") 1000%float,
                Some Unit.Length).
Proof.
  split; [vm_compute; reflexivity | ].
  destruct (proj2 (proj2 (proj1 (proj2 (proj2 (proj2 (proj2 (proj2
              (accessors_parsed_back unit_h Reference.fast_float))))))
              (Quantity.make 2500%float))) eq_refl)
    as (sym & Hsym & Hback).
  injection Hsym as <-.
  apply (Hback "2.5" 2.5%float (Some Unit.None)).
  exists {| ptr := 3; ec := errc_none |}. vm_compute. auto.
Defined.


(** * Properties of the image writer *)

(** A loop that inserts [g item] for the items that pass [p] collects
    exactly these, without repetition. *)
Section InsertLoop.
Variables A Item : Type.
Variable A_eq_dec : forall a b : A, {a = b} + {a <> b}.
Variables (p : Item -> bool) (g : Item -> A) (f : set A -> Item -> set A).
Hypothesis f_spec :
  forall s item, f s item = if p item then set_add A_eq_dec (g item) s else s.

Lemma insert_loop_In (items : list Item) (s : set A) (x : A) :
  In x (fold_left f items s)
  <-> In x s \/ exists item, In item items /\ p item = true /\ g item = x.
Proof.
  revert s. induction items as [| item items IH]; intros s; simpl.
  - split; [auto | intros [H | (item & [] & _)]; exact H].
  - rewrite IH, f_spec. split.
    + intros [H | (i & Hin & Hp & Hg)].
      * destruct (p item) eqn:Hp; [ | now left].
        apply set_add_iff in H. destruct H as [-> | H]; [ | now left].
        right. exists item. auto.
      * right. exists i. auto.
    + intros [H | (i & [<- | Hin] & Hp & Hg)].
      * left. destruct (p item); [apply set_add_iff; now right | exact H].
      * left. rewrite Hp. apply set_add_iff. left. now symmetry.
      * right. exists i. auto.
Qed.

Lemma insert_loop_NoDup (items : list Item) (s : set A) :
  NoDup s -> NoDup (fold_left f items s).
Proof.
  revert s. induction items as [| item items IH]; intros s Hs; simpl.
  - exact Hs.
  - apply IH. rewrite f_spec.
    destruct (p item); [now apply set_add_nodup | exact Hs].
Qed.

End InsertLoop.

Section ImageWriterFacts.
Variables GuiApplication Parameters DocumentPtr TDF_Label : Type.
Variable ApplicationItem Format : Type.
Variable DocumentPtr_eq_dec : forall a b : DocumentPtr, {a = b} + {a <> b}.
Variable TDF_Label_eq_dec : forall a b : TDF_Label, {a = b} + {a <> b}.
Variable Format_eq_dec : forall a b : Format, {a = b} + {a <> b}.
Variables isDocument isDocumentTreeNode : ApplicationItem -> bool.
Variable document : ApplicationItem -> DocumentPtr.
Variable documentTreeNode_label : ApplicationItem -> TDF_Label.
Variable Format_Image : Format.
Variable Parameters_default : Parameters.

Local Abbreviation ImageWriter :=
  (IO.ImageWriter GuiApplication Parameters DocumentPtr TDF_Label).
Local Abbreviation transfer_documents :=
  (IO.transfer_documents DocumentPtr ApplicationItem DocumentPtr_eq_dec
     isDocument document).
Local Abbreviation transfer_nodes :=
  (IO.transfer_nodes DocumentPtr TDF_Label ApplicationItem DocumentPtr_eq_dec
     TDF_Label_eq_dec isDocumentTreeNode document documentTreeNode_label).
Local Abbreviation transfer :=
  (IO.transfer GuiApplication Parameters DocumentPtr TDF_Label ApplicationItem
     DocumentPtr_eq_dec TDF_Label_eq_dec isDocument isDocumentTreeNode
     document documentTreeNode_label).
Local Abbreviation create :=
  (IO.create GuiApplication Parameters DocumentPtr TDF_Label Format
     Format_eq_dec Format_Image Parameters_default).
Local Abbreviation formats := (IO.formats Format Format_Image).

(** The documents selected: those of the document items. *)
Lemma transfer_documents_In (appItems : list ApplicationItem)
    (d : DocumentPtr) :
  In d (transfer_documents appItems)
  <-> exists item,
        In item appItems /\ isDocument item = true /\ document item = d.
Proof.
  unfold IO.transfer_documents.
  rewrite (insert_loop_In _ _ DocumentPtr_eq_dec isDocument document)
    by reflexivity.
  split; [intros [[] | H]; exact H | auto].
Qed.

(** The nodes selected over a set of documents: the labels of the node
    items whose document is not in the set. *)
Lemma transfer_nodes_In (setDoc : set DocumentPtr)
    (appItems : list ApplicationItem) (l : TDF_Label) :
  In l (transfer_nodes setDoc appItems)
  <-> exists item,
        In item appItems /\ isDocumentTreeNode item = true
        /\ documentTreeNode_label item = l /\ ~ In (document item) setDoc.
Proof.
  unfold IO.transfer_nodes.
  rewrite (insert_loop_In _ _ TDF_Label_eq_dec
             (fun item =>
                isDocumentTreeNode item
                && negb (set_mem DocumentPtr_eq_dec (document item) setDoc))
             documentTreeNode_label).
  - split.
    + intros [[] | (item & Hin & Hp & Hl)]. exists item.
      apply andb_prop in Hp. destruct Hp as [Hnode Hmem].
      apply negb_true_iff in Hmem.
      repeat split; auto.
      now apply set_mem_complete1 in Hmem.
    + intros (item & Hin & Hnode & Hl & Hdoc). right. exists item.
      repeat split; auto. rewrite Hnode. simpl. apply negb_true_iff.
      now apply set_mem_complete2.
  - intros s item. destruct (isDocumentTreeNode item); [ | reflexivity].
    destruct (set_mem DocumentPtr_eq_dec (document item) setDoc); reflexivity.
Qed.

(** X14: after [transfer] the writer holds the documents of the document
    items and the labels of those tree-node items whose document is not
    among them, wherever in the list the items stand, each once; what the
    sets held before is gone, the application and the parameters are kept,
    and the result is [true]. *)
Theorem transfer_selection (this : ImageWriter)
    (appItems : list ApplicationItem) :
  let w := snd (transfer this appItems) in
  fst (transfer this appItems) = true
  /\ IO.m_guiApp _ _ _ _ w = IO.m_guiApp _ _ _ _ this
  /\ IO.m_params _ _ _ _ w = IO.m_params _ _ _ _ this
  /\ (forall d,
         In d (IO.m_setDoc _ _ _ _ w)
         <-> exists item,
               In item appItems /\ isDocument item = true
               /\ document item = d)
  /\ (forall l,
         In l (IO.m_setNode _ _ _ _ w)
         <-> exists item,
               In item appItems /\ isDocumentTreeNode item = true
               /\ documentTreeNode_label item = l
               /\ ~ exists item',
                      In item' appItems /\ isDocument item' = true
                      /\ document item' = document item)
  /\ NoDup (IO.m_setDoc _ _ _ _ w)
  /\ NoDup (IO.m_setNode _ _ _ _ w).
Proof.
  simpl. repeat split; try reflexivity.
  - now apply transfer_documents_In.
  - now apply transfer_documents_In.
  - intros H. apply transfer_nodes_In in H.
    destruct H as (item & Hin & Hnode & Hl & Hdoc).
    exists item. repeat split; auto.
    intros H. apply Hdoc. now apply transfer_documents_In.
  - intros (item & Hin & Hnode & Hl & Hdoc).
    apply transfer_nodes_In. exists item. repeat split; auto.
    intros H. apply Hdoc. now apply transfer_documents_In.
  - unfold IO.transfer_documents.
    apply (insert_loop_NoDup _ _ DocumentPtr_eq_dec isDocument document);
      [reflexivity | constructor].
  - unfold IO.transfer_nodes.
    apply (insert_loop_NoDup _ _ TDF_Label_eq_dec
             (fun item =>
                isDocumentTreeNode item
                && negb (set_mem DocumentPtr_eq_dec (document item)
                           (transfer_documents appItems)))
             documentTreeNode_label); [ | constructor].
    intros s item. destruct (isDocumentTreeNode item); [ | reflexivity].
    destruct (set_mem DocumentPtr_eq_dec (document item) _); reflexivity.
Qed.

(** X15: the selection depends on which items are passed only, not on
    their order, their repetition or the writer: two calls whose lists have
    the same items leave sets with the same members. *)
Theorem transfer_same_items (this this' : ImageWriter)
    (appItems appItems' : list ApplicationItem) :
  (forall item, In item appItems <-> In item appItems') ->
  let w := snd (transfer this appItems) in
  let w' := snd (transfer this' appItems') in
  (forall d, In d (IO.m_setDoc _ _ _ _ w) <-> In d (IO.m_setDoc _ _ _ _ w'))
  /\ (forall l,
         In l (IO.m_setNode _ _ _ _ w) <-> In l (IO.m_setNode _ _ _ _ w')).
Proof.
  intros Hsame. simpl.
  assert (Hdoc : forall d,
             In d (transfer_documents appItems)
             <-> In d (transfer_documents appItems')).
  { intros d. rewrite !transfer_documents_In.
    split; intros (item & Hin & H); exists item;
      (split; [now apply Hsame | exact H]). }
  split; [exact Hdoc | ].
  intros l. rewrite !transfer_nodes_In.
  split; intros (item & Hin & Hnode & Hl & Hd); exists item;
    (split; [now apply Hsame | ]); repeat split; auto;
    intros H; apply Hd; now apply Hdoc.
Qed.

(** X16: the factory makes a writer for the formats it lists and for no
    other; a new writer belongs to the application of the factory and
    selects nothing. *)
Theorem factory_create (guiApp : GuiApplication) (format : Format) :
  ((exists w, create guiApp format = Some w) <-> In format formats)
  /\ (forall w,
         create guiApp format = Some w ->
         format = Format_Image
         /\ IO.m_guiApp _ _ _ _ w = guiApp
         /\ IO.m_setDoc _ _ _ _ w = []
         /\ IO.m_setNode _ _ _ _ w = []).
Proof.
  unfold IO.create, IO.formats.
  destruct (Format_eq_dec format Format_Image) as [-> | Hne]; split.
  - split; [intros _; now left | eauto].
  - intros w [= <-]. auto.
  - split; [intros [w H]; discriminate H | ].
    intros [H | []]. now contradiction Hne.
  - discriminate.
Qed.

End ImageWriterFacts.

(** A node of document 1 before the document itself, and a node of
    document 2: the first node is dropped. *)
Lemma transfer_selection_witness :
  sample_transfer [sample_node 1 7; sample_document 1; sample_node 2 8]
  = (true, {| IO.m_guiApp := tt; IO.m_params := tt;
              IO.m_setDoc := [1]; IO.m_setNode := [8] |})
  /\ NoDup (IO.m_setNode _ _ _ _
              (snd (sample_transfer
                      [sample_node 1 7; sample_document 1; sample_node 2 8]))).
Proof.
  split; [reflexivity | ].
  apply (transfer_selection unit unit nat nat sample_item Nat.eq_dec
           Nat.eq_dec sample_isDocument sample_isDocumentTreeNode sample_doc
           sample_label).
Defined.

Lemma transfer_same_items_witness :
  In 8 (IO.m_setNode _ _ _ _
          (snd (sample_transfer
                  [sample_node 1 7; sample_document 1; sample_node 2 8])))
  <-> In 8 (IO.m_setNode _ _ _ _
              (snd (sample_transfer
                      [sample_document 1; sample_node 2 8; sample_node 1 7;
                       sample_node 2 8]))).
Proof.
  apply (transfer_same_items unit unit nat nat sample_item Nat.eq_dec
           Nat.eq_dec sample_isDocument sample_isDocumentTreeNode sample_doc
           sample_label).
  intros item. simpl. tauto.
Defined.

Lemma factory_create_witness :
  IO.create unit unit nat nat bool Bool.bool_dec true tt tt true
  = Some {| IO.m_guiApp := tt; IO.m_params := tt;
            IO.m_setDoc := []; IO.m_setNode := [] |}
  /\ IO.m_setDoc unit unit nat nat
       {| IO.m_guiApp := tt; IO.m_params := tt;
          IO.m_setDoc := []; IO.m_setNode := [] |} = [].
Proof.
  split; [reflexivity | ].
  apply (proj2 (factory_create unit unit nat nat bool Bool.bool_dec true tt
                  tt true)).
  reflexivity.
Defined.
